(** * ScrapLang evaluation core: values, scopes and the call protocol

    A shallow embedding of the runtime value model
    (lang/elements/commons.ts, lang/elements/values/numerics.ts,
    lang/elements/entities/variables.ts) and of the tree-walking
    evaluator (interpreter/interpreter.ts), followed by the properties
    of the language specification that concern them. *)

From Stdlib Require Import ZArith Ascii String DecimalString List.
From stdpp Require Import gmap strings.

Set Default Proof Using "Type".
#[local] Set Warnings "-register-all,-clear-no-such-hyp".
Local Open Scope string_scope.

(** ** Syntax tree, as the evaluator queries it

    ast/ast.ts and ast/nodes.ts are consumed only through kind
    predicates ([isCall], [isIdentifier], ...) and accessors
    ([getCallee], [getArgs], [getSymbol], [getPairs], ...).  Each node
    has one kind, so the predicates become the constructors of a
    variant.  Nodes whose evaluation is delegated to other modules
    carry an opaque handle to the parser's data.  [OtherValueNode] is
    a node that none of the kind predicates of [computeValue] accepts;
    of such a node the evaluator only asks [isUndefined()] and the
    name of its class. *)

Definition handle := nat.

Inductive ValueNode : Type :=
  | FunctionNode (h : handle)
  | ReassignmentNode (h : handle)
  | ModuleAccessNode (h : handle)
  | ObjectDestructionNode (h : handle)
  | ObjectAccessNode (h : handle)
  | BinaryExprNode (h : handle)
  | CallExprNode (getCallee : string) (getArgs : list ValueNode)
  | IdentifierNode (getSymbol : string)
  | LiteralObjectNode (getPairs : list (string * ValueNode))
  | LiteralArrayNode (getItems : list ValueNode)
  | StringNode (getValue : string)
  | NumericNode (getValue : Z)
  | FloatNode (getValue : Z)
  | CharNode (getValue : string)
  | OtherValueNode (constructorName : string) (undefined : bool).

Inductive ControlStmtNode : Type :=
  | IfNode (h : handle)
  | OtherControlNode (h : handle).

Inductive EntityNode : Type :=
  | FunctionStmtNode (h : handle)
  | ModuleNode (h : handle)
  | VariableNode (h : handle)
  | OtherEntityNode (constructorName : string).

(** [Instruction]: what a function body is made of. *)
Inductive Instruction : Type :=
  | InstrValue (node : ValueNode)
  | InstrControl (node : ControlStmtNode)
  | InstrEntity (node : EntityNode).

Definition isIdentifier (node : ValueNode) : bool :=
  match node with IdentifierNode _ => true | _ => false end.

Definition isUndefined (node : ValueNode) : bool :=
  match node with OtherValueNode _ undefined => undefined | _ => false end.

(** ** Integer primitives (numerics.ts)

    The payload is a host number, an IEEE double.  An integer-valued
    payload is kept as the [Z] it equals; the host's [+ 1] and [- 1]
    compute the exact sum and round it to the nearest double, ties to
    the even significand. *)

Module numerics.

Record ScrapInteger : Type := mkInteger { getValue : Z }.

(** The double nearest to the integer [z]: [z] itself below [2^53] in
    magnitude, where every integer is a double; above, doubles are
    [ulp] apart, [ulp] the power of two that leaves 53 significant
    bits. *)
Definition nearestDouble (z : Z) : Z :=
  (let a := Z.abs z in
   if a <? 2 ^ 53 then z
   else
     let ulp := 2 ^ (Z.log2 a - 52) in
     let q := a / ulp in
     let r := a mod ulp in
     let q' :=
       if 2 * r <? ulp then q
       else if ulp <? 2 * r then q + 1
       else if Z.even q then q else q + 1 in
     Z.sgn z * (q' * ulp))%Z.

(** [new ScrapInteger((this.value as number)++)]: the postfix operator
    yields the old payload to the constructor and stores the
    successor back into the receiver.  The result pairs the new
    object with the receiver as the call leaves it. *)
Definition increment (this : ScrapInteger) : ScrapInteger * ScrapInteger :=
  let old := getValue this in
  (mkInteger old, mkInteger (nearestDouble (old + 1))).

(** [new ScrapInteger((this.value as number)--)]. *)
Definition decrement (this : ScrapInteger) : ScrapInteger * ScrapInteger :=
  let old := getValue this in
  (mkInteger old, mkInteger (nearestDouble (old - 1))).

End numerics.

(** ** Functions as data (commons.ts) *)

Definition ScopeRef := nat.

Record ScrapParam : Type := mkParam { pName : string; isRest : bool }.

Record DefinedFunction : Type := mkDefined {
  name : string;
  isExported : bool;
  getScope : ScopeRef;
  getParams : list ScrapParam;
  getBody : list Instruction;
  getReturnValue : ValueNode
}.

(** [argsCount: number | true]; [true] stands for a variable arity. *)
Inductive ArgsCount : Type :=
  | Fixed (n : nat)
  | AnyCount.

(** The host callable of a native function is a capability of the
    hosting layer; the value only carries a handle to it. *)
Record ScrapNative : Type := mkNative {
  nativeName : string;
  nativeIsExported : bool;
  getAction : handle;
  getArgsCount : ArgsCount
}.

Inductive ScrapFunction : Type :=
  | Defined (f : DefinedFunction)
  | Native (f : ScrapNative).

Definition fnName (f : ScrapFunction) : string :=
  match f with Defined d => name d | Native n => nativeName n end.

(** ** Failures

    The two failure kinds of the core, and the host's own [TypeError]
    (calling a member the receiver does not have, reading a property
    of [undefined]). *)
Inductive Error : Type :=
  | UndefinedReferenceError
  | RuntimeError (message : string)
  | TypeError (message : string).

(** How a method of the value model ends: it returns, or it throws. *)
Inductive Completion (A : Type) : Type :=
  | Normal (a : A)
  | Abrupt (e : Error).
Arguments Normal {A} a.
Arguments Abrupt {A} e.

(** One method call after another. *)
Definition andThen {A B} (c : Completion A) (k : A → Completion B)
  : Completion B :=
  match c with
  | Normal a => k a
  | Abrupt e => Abrupt e
  end.

(** Reading [property] of the host's [undefined]. *)
Definition cannotRead (property : string) : Error :=
  TypeError ("Cannot read properties of undefined (reading '"
             +:+ property +:+ "')").

(** ** The host's [Map] *)

(** A [Map] holds its keys in the order they were first set: setting a
    key that is present replaces its value where it stands, setting a
    new one appends it. *)
Record HostMap (V : Type) : Type := mkMap {
  bindings : gmap string V;
  insertionOrder : list string
}.
Arguments mkMap {V} bindings insertionOrder.
Arguments bindings {V} h.
Arguments insertionOrder {V} h.

Module Map_.

(** [new Map()]. *)
Definition empty {V} : HostMap V := mkMap ∅ [].

Definition get {V} (m : HostMap V) (key : string) : option V :=
  bindings m !! key.

Definition has {V} (m : HostMap V) (key : string) : bool :=
  bool_decide (is_Some (bindings m !! key)).

Definition set {V} (m : HostMap V) (key : string) (v : V) : HostMap V :=
  mkMap (<[key := v]> (bindings m))
        (if has m key then insertionOrder m
         else (insertionOrder m ++ [key])%list).

(** [Array.from(m)]: the entries, in insertion order. *)
Definition toArray {V} (m : HostMap V) : list (string * V) :=
  omap (λ key, (λ v, (key, v)) <$> bindings m !! key) (insertionOrder m).

End Map_.

(** ** Runtime values (commons.ts) *)

(** A module, as far as the evaluator handles one: a named entity that
    owns a scope (entities/modules.ts). *)
Record ScrapModule : Type := mkModule {
  modName : string;
  modIsExported : bool;
  modScope : ScopeRef
}.

Record Metaproperties : Type := mkMeta {
  isStatic : bool;
  visibility : string;
  writeable : bool
}.

(** Host scalars wrapped by primitives. *)
Inductive Primitive : Type :=
  | PInteger (z : Z)
  | PFloat (bits : Z)
  | PString (s : string)
  | PChar (s : string).

(** A property table is a host [Map].  Its declared value type is the
    descriptor [ScrapObjectProperty]; [computeLitObj] stores evaluated
    Values in it without a descriptor, which the second kind of slot
    records.  [HostUndefined] is the host's own [undefined] (what a
    method with an empty body returns, or a getter a class does not
    declare), as opposed to the language's [ScrapUndefined] value, and
    [HostPayload v] is the payload the Value object [v] wraps, read as
    if it were a descriptor's [value].  [Module_] is a module object where a
    Value is expected: what a name resolves to is handed on without
    telling entities from values.  A [ScrapObject] carries the two
    fields of the class: [prototype], and the table [this.value],
    which is absent ([undefined]) in the objects [ScrapFunction]
    builds, its constructor calling [super(null)] without entries.
    The table is the host's [Map], insertion order included;
    [formatObject] prints its entries in that order. *)
Inductive ScrapValue : Type :=
  | Raw (payload : Primitive)
  | Integer (i : numerics.ScrapInteger)
  | Float (bits : Z)
  | String_ (s : string)
  | Char (s : string)
  | ScrapUndefined
  | Object (o : ScrapObject)
  | ScrapArray (elements : list ScrapObjectProperty)
  | Function (f : ScrapFunction)
  | Module_ (m : ScrapModule)
  | HostUndefined
  | HostPayload (held : ScrapValue)
with ScrapObject : Type :=
  | mkObject (prototype : option ScrapObject)
             (table : option (HostMap Slot))
with ScrapObjectProperty : Type :=
  | mkProperty (metaproperties : Metaproperties) (value : ScrapValue)
with Slot : Type :=
  | Described (d : ScrapObjectProperty)
  | Bare (v : ScrapValue).

Definition value (d : ScrapObjectProperty) : ScrapValue :=
  match d with mkProperty _ v => v end.

Definition prototype (o : ScrapObject) : option ScrapObject :=
  match o with mkObject p _ => p end.

(** [this.value]: the table, if the object was built with one. *)
Definition table (o : ScrapObject) : option (HostMap Slot) :=
  match o with mkObject _ t => t end.

(** The own entries of an object; an object without a table has none. *)
Definition entries (o : ScrapObject) : gmap string Slot :=
  match table o with
  | Some t => bindings t
  | None => ∅
  end.

(** The object a [ScrapFunction] is: [super(null)] sets the prototype
    to [null] and passes no entries (the constructor's own TODO). *)
Definition asObject (f : ScrapFunction) : ScrapObject := mkObject None None.

(** Whether an IEEE double, given by its bit pattern, is truthy:
    neither a zero nor a NaN. *)
Definition floatTruthy (bits : Z) : bool :=
  (let magnitude := bits mod 2 ^ 63 in
   negb (magnitude =? 0) && (magnitude <=? 2047 * 2 ^ 52))%Z.

Definition primitiveTruthy (payload : Primitive) : bool :=
  match payload with
  | PInteger z => negb (z =? 0)%Z
  | PFloat bits => floatTruthy bits
  | PString s => negb (String.eqb s "")
  | PChar s => negb (String.eqb s "")
  end.

(** [v.value] for what a slot holds bare.  A function has no payload
    and an Undefined value is built without one; neither a scalar nor
    a [Map] has a property [value]. *)
Definition payloadOf (v : ScrapValue) : ScrapValue :=
  match v with
  | Function _ | ScrapUndefined | Module_ _ => HostUndefined
  | Object (mkObject _ None) => HostUndefined
  | HostUndefined | HostPayload _ => HostUndefined
  | _ => HostPayload v
  end.

(** Host truthiness of what a slot holds bare: a Value object is
    truthy, the host's [undefined] is not, and a payload is truthy as
    the scalar it is (a [Map] or an array always). *)
Definition truthy (v : ScrapValue) : bool :=
  match v with
  | HostUndefined => false
  | HostPayload (Raw payload) => primitiveTruthy payload
  | HostPayload (Integer i) => negb (numerics.getValue i =? 0)%Z
  | HostPayload (Float bits) => floatTruthy bits
  | HostPayload (String_ s) => negb (String.eqb s "")
  | HostPayload (Char s) => negb (String.eqb s "")
  | HostPayload (Object _) => true
  | HostPayload (ScrapArray _) => true
  | HostPayload _ => false
  | _ => true
  end.

(** The test [prop ? ... : ...] of [get]: a descriptor is a host
    object. *)
Definition truthySlot (prop : Slot) : bool :=
  match prop with
  | Described _ => true
  | Bare v => truthy v
  end.

(** [prop.value] for whatever the table holds under a key. *)
Definition slotValue (prop : Slot) : ScrapValue :=
  match prop with
  | Described d => value d
  | Bare v => payloadOf v
  end.

Module ScrapObj.

(** [const prop = this.value.get(name);
    return prop ? prop.value : new ScrapUndefined()]. *)
Definition get (this : ScrapObject) (n : string) : Completion ScrapValue :=
  match table this with
  | None => Abrupt (cannotRead "get")
  | Some t =>
      Normal (match Map_.get t n with
              | Some prop =>
                  if truthySlot prop then slotValue prop else ScrapUndefined
              | None => ScrapUndefined
              end)
  end.

(** [this.value.set(key, value)]: the receiver's own table is updated
    in place; the result is the receiver after the call. *)
Definition set (this : ScrapObject) (key : string) (d : ScrapObjectProperty)
  : Completion ScrapObject :=
  match table this with
  | None => Abrupt (cannotRead "set")
  | Some t =>
      Normal (mkObject (prototype this) (Some (Map_.set t key (Described d))))
  end.

(** [return this.value.has(name)]. *)
Definition has (this : ScrapObject) (n : string) : Completion bool :=
  match table this with
  | None => Abrupt (cannotRead "has")
  | Some t => Normal (Map_.has t n)
  end.

End ScrapObj.

(** ** Entities (variables.ts, commons.ts) *)

(** [new ScrapVariable(isConst, name, assignedValue, isExported)]. *)
Record ScrapVariable : Type := mkVariable {
  isConst : bool;
  varName : string;
  getAssignedValue : ScrapValue;
  varIsExported : bool
}.

(** [ScrapVariable] declares [getAssignedValue] and [setAssignedValue]
    only; reading [getVal] from one yields the host's [undefined]. *)
Definition getVal (v : ScrapVariable) : ScrapValue := HostUndefined.

(** What a scope's table can hold: [Nameable & Exportable]. *)
Inductive ScrapEntity : Type :=
  | VariableEntity (v : ScrapVariable)
  | FunctionEntity (f : ScrapFunction)
  | ModuleEntity (m : ScrapModule).

Definition entityName (e : ScrapEntity) : string :=
  match e with
  | VariableEntity v => varName v
  | FunctionEntity f => fnName f
  | ModuleEntity m => modName m
  end.

(** [guards.isVariable] and [guards.isDefinedFn] are [instanceof]
    tests; the first is the [VariableEntity] case of a match. *)
Definition isDefinedFn (v : ScrapValue) : bool :=
  match v with Function (Defined _) => true | _ => false end.

(** [instanceof ScrapPrimitive], with the payload it wraps. *)
Definition primitivePayload (v : ScrapValue) : option Primitive :=
  match v with
  | Integer i => Some (PInteger (numerics.getValue i))
  | Float b => Some (PFloat b)
  | String_ s => Some (PString s)
  | Char s => Some (PChar s)
  | _ => None
  end.

(** ** The store of scopes and the evaluation monad

    Scopes are shared mutable objects: a function keeps the one scope
    made at its definition, and every call binds into it and releases
    it.  The store maps scope references to scope objects. *)

Record Scope : Type := mkScope {
  getOwner : string;
  parent : option ScopeRef;
  getEntries : gmap string ScrapEntity
}.

Record State : Type := mkState { scopes : gmap ScopeRef Scope }.

Definition emptyScope : Scope := mkScope "" None ∅.

Definition scopeAt (s : State) (r : ScopeRef) : Scope :=
  default emptyScope (scopes s !! r).

Definition entriesOf (s : State) (r : ScopeRef) : gmap string ScrapEntity :=
  getEntries (scopeAt s r).

Definition withEntries (r : ScopeRef) (t : gmap string ScrapEntity) (s : State)
  : State :=
  let sc := scopeAt s r in
  mkState (<[r := mkScope (getOwner sc) (parent sc) t]> (scopes s)).

Inductive Outcome (A : Type) : Type :=
  | Returns (a : A) (s : State)
  | Throws (e : Error) (s : State)
  | OutOfFuel.
Arguments Returns {A} a s.
Arguments Throws {A} e s.
Arguments OutOfFuel {A}.

Definition M (A : Type) : Type := State → Outcome A.

Definition ret {A} (a : A) : M A := λ s, Returns a s.

Definition throw {A} (e : Error) : M A := λ s, Throws e s.

Definition bind {A B} (m : M A) (k : A → M B) : M B :=
  λ s, match m s with
       | Returns a s' => k a s'
       | Throws e s' => Throws e s'
       | OutOfFuel => OutOfFuel
       end.

Declare Scope eval_scope.
Delimit Scope eval_scope with eval.
Notation "x <- m ;; k" := (bind m (λ x, k))
  (at level 100, m at next level, right associativity) : eval_scope.
Notation "m ;; k" := (bind m (λ _, k))
  (at level 100, right associativity) : eval_scope.
Local Open Scope eval_scope.

(** [array.map(f)] with an effectful [f], left to right. *)
Fixpoint mapM {A B} (f : A → M B) (l : list A) : M (list B) :=
  match l with
  | [] => ret []
  | x :: l' => y <- f x ;; ys <- mapM f l' ;; ret (y :: ys)
  end.

(** [for (const x of l) f(x)]. *)
Fixpoint forEach {A} (f : A → M unit) (l : list A) : M unit :=
  match l with
  | [] => ret tt
  | x :: l' => f x ;; forEach f l'
  end.

(** ** Scopes (lang/scope.ts) *)

Module Scope_.

(** Modelled from the spec: [Scope.addEntry] of lang/scope.ts.
    "fails (reports a duplicate declaration condition ...) if [name]
    already exists in this scope's own table; parent scopes are not
    consulted".  The report is the boolean that [addToScope] tests. *)
Definition addEntry (this : ScopeRef) (n : string) (e : ScrapEntity) : M bool :=
  λ s, match entriesOf s this !! n with
       | Some _ => Returns false s
       | None => Returns true (withEntries this (<[n := e]> (entriesOf s this)) s)
       end.

(** The walk of [getReference]: this scope, then successive parents. *)
Fixpoint walk (steps : nat) (s : State) (r : ScopeRef) (n : string)
  : option ScrapEntity :=
  match steps with
  | O => None
  | S steps' =>
      match entriesOf s r !! n with
      | Some e => Some e
      | None =>
          match parent (scopeAt s r) with
          | Some p => walk steps' s p n
          | None => None
          end
      end
  end.

(** Modelled from the spec: [Scope.getReference] of lang/scope.ts.
    "returns the nearest binding for [name] found by searching this
    scope then successive parents; returns ... absence if exhausted".
    Parent links form no cycle, so a chain visits each scope of the
    store at most once. *)
Definition getReference (this : ScopeRef) (n : string) : M (option ScrapEntity) :=
  λ s, Returns (walk (S (size (scopes s))) s this n) s.

(** Modelled from the spec: [Scope.get] of lang/scope.ts, the lookup
    [findCallee] uses.  "look up the call's target name in the
    caller's scope", a name being unresolved when it "cannot be found
    in the active scope chain (identifiers, call targets)". *)
Definition get (this : ScopeRef) (n : string) : M (option ScrapEntity) :=
  getReference this n.

(** Modelled from the spec: [Scope.clean] of lang/scope.ts.
    "empties this scope's own table ...; never touches the parent". *)
Definition clean (this : ScopeRef) : M unit :=
  λ s, Returns tt (withEntries this ∅ s).

(** Modelled from the spec: the [getEntries] accessor of
    lang/scope.ts, the scope's own name-to-Entity table. *)
Definition ownEntries (this : ScopeRef) : M (gmap string ScrapEntity) :=
  λ s, Returns (entriesOf s this) s.

(** Modelled from the spec: the [getOwner] accessor of lang/scope.ts,
    the scope's owner label. *)
Definition owner (this : ScopeRef) : M string :=
  λ s, Returns (getOwner (scopeAt s this)) s.

End Scope_.

(** ** The evaluator (interpreter/interpreter.ts) *)

(** The argument of [computeCall], [findCallee], [execCallee] and
    [execDefinedFunc]: the accessors of a call node. *)
Record CallNode : Type := mkCall {
  getCallee : string;
  getArgs : list ValueNode
}.

(** The methods through which evaluation re-enters the evaluator
    ([this.computeValue], [this.computeInstruction],
    [this.computeEntity]).  The other methods are reached from these
    and are plain functions of [this]. *)
Record Self : Type := mkSelf {
  thisComputeValue : ValueNode → ScopeRef → M ScrapValue;
  thisComputeInstruction : Instruction → ScopeRef → M unit;
  thisComputeEntity : EntityNode → ScopeRef → M ScrapEntity
}.

(** The collaborators that are not part of the evaluator: the modules
    functions.ts, variables.ts, modules.ts, objects.ts and controls.ts
    of the interpreter directory, and the host callables of native
    functions.  Those that receive the interpreter take [Self]. *)
Record Host : Type := mkHost {
  computeFn : handle → ScopeRef → M ScrapFunction;
  computeReassignment : Self → handle → ScopeRef → M ScrapValue;
  computeModuleAccess : Self → handle → ScopeRef → M ScrapValue;
  computeObjectDestruction : Self → handle → ScopeRef → M ScrapValue;
  computeObjectAccess : Self → handle → ScopeRef → M ScrapValue;
  computeIf : Self → handle → ScopeRef → M unit;
  computeMod : Self → handle → ScopeRef → M ScrapEntity;
  computeVar : Self → handle → ScopeRef → M ScrapEntity;
  action : handle → list ScrapValue → M ScrapValue
}.

(** Decimal rendering of a count inside a template string. *)
Definition showNat (n : nat) : string := NilZero.string_of_uint (Nat.to_uint n).

(** [scrapRuntimeError(message)], the function of the module. *)
Definition scrapRuntimeError {A} (message : string) : M A :=
  throw (RuntimeError message).

(** The class [Interpreter] declares no member [scrapRuntimeError],
    [scrapReferenceError] or [computeBinaryExpr]; a call
    [this.member(...)] of one of them is a call of [undefined]. *)
Definition notAMember {A} (member : string) : M A :=
  throw (TypeError ("this." +:+ member +:+ " is not a function")).

(** Reading a property of [undefined]. *)
Definition readOfUndefined {A} (property : string) : M A :=
  throw (TypeError ("Cannot read properties of undefined (reading '"
                    +:+ property +:+ "')")).

(** [addToScope(entity, scope)]. *)
Definition addToScope (entity : ScrapEntity) (scope : ScopeRef) : M ScrapEntity :=
  ok <- Scope_.addEntry scope (entityName entity) entity ;;
  if ok then ret entity
  else
    o <- Scope_.owner scope ;;
    scrapRuntimeError
      ("'" +:+ entityName entity +:+ "' is already defined at '" +:+ o +:+ "'").

Definition restMetaproperties : Metaproperties := mkMeta true "public" true.

Definition arityMessage (callee : string) (expected received : nat) : string :=
  "'" +:+ callee +:+ "' expects " +:+ showNat expected
      +:+ " arguments, but received " +:+ showNat received.

Definition restArityMessage (callee : string) (expected received : nat) : string :=
  "'" +:+ callee +:+ "' expects from " +:+ showNat expected
      +:+ " to multiple arguments, but received " +:+ showNat received.

Definition escapeMessage (callee : string) : string :=
  "You returned a locally scoped value in '" +:+ callee
      +:+ "', which will be destroyed after the execution ends".

Section Interpreter.

Variable host : Host.
Variable VERSION : string.

Definition unsupported {A} (constructorName : string) : M A :=
  scrapRuntimeError ("ScrapLang " +:+ VERSION +:+ " still doesn't support '"
                     +:+ constructorName +:+ "' interpreting").

(** The loop shared by both binding paths:
    [for (const i in ps) callee.getScope.addEntry(ps[i].pName,
       new ScrapVariable(false, ps[i].pName,
                         this.computeValue(as[i], calleerScope), false))].
    The argument is evaluated before [addEntry] runs, and the
    boolean [addEntry] reports is dropped.  Both callers have checked
    that the two lists have the same length. *)
Fixpoint bindInOrder (this : Self) (calleeScope calleerScope : ScopeRef)
    (ps : list ScrapParam) (args : list ValueNode) : M unit :=
  match ps with
  | [] => ret tt
  | p :: ps' =>
      match args with
      | a :: args' =>
          v <- thisComputeValue this a calleerScope ;;
          Scope_.addEntry calleeScope (pName p)
            (VariableEntity (mkVariable false (pName p) v false)) ;;
          bindInOrder this calleeScope calleerScope ps' args'
      | [] => readOfUndefined "isReassignment"
      end
  end.

(** [computeRestParameters(callee, calleerScope, params, args)]. *)
Definition computeRestParameters (this : Self) (callee : DefinedFunction)
    (calleerScope : ScopeRef) (params : list ScrapParam) (args : list ValueNode)
  : M unit :=
  match last params with
  | None =>
      (* [restIdx] is -1: [slice(0, -1)] drops the last argument, and
         [params[-1]] is undefined *)
      if bool_decide (length (removelast args) ≠ 0)
      then scrapRuntimeError
             (restArityMessage (name callee) 0 (length (removelast args)))
      else readOfUndefined "pName"
  | Some restParam =>
      let restIdx := length params - 1 in
      let slicedParams := take restIdx params in
      let slicedArgs := take restIdx args in
      if bool_decide (length slicedArgs ≠ length slicedParams)
      then scrapRuntimeError
             (restArityMessage (name callee) (length slicedParams)
                               (length slicedArgs))
      else
        bindInOrder this (getScope callee) calleerScope slicedParams slicedArgs ;;
        items <- mapM (λ node,
                         v <- thisComputeValue this node calleerScope ;;
                         ret (mkProperty restMetaproperties v))
                      (drop restIdx args) ;;
        Scope_.addEntry (getScope callee) (pName restParam)
          (VariableEntity
             (mkVariable true (pName restParam) (ScrapArray items) false)) ;;
        ret tt
  end.

(** [params.length > 0 && params[params.length - 1].isRest]. *)
Definition lastIsRest (params : list ScrapParam) : bool :=
  match last params with
  | Some p => isRest p
  | None => false
  end.

(** Lines 117-129 of [execDefinedFunc]: parameter binding. *)
Definition bindArguments (this : Self) (call : CallNode)
    (callee : DefinedFunction) (calleerScope : ScopeRef) : M unit :=
  let params := getParams callee in
  let args := getArgs call in
  if lastIsRest params
  then computeRestParameters this callee calleerScope params args
  else
    if bool_decide (length args ≠ length params)
    then scrapRuntimeError
           (arityMessage (name callee) (length params) (length args))
    else bindInOrder this (getScope callee) calleerScope params args.

(** Lines 131-132: [for (const instruction of callee.getBody)
    this.computeInstruction(instruction, scope)]. *)
Definition runBody (this : Self) (callee : DefinedFunction) (scope : ScopeRef)
  : M unit :=
  forEach (λ instruction, thisComputeInstruction this instruction scope)
          (getBody callee).

(** Lines 134-136: the escape check on the return expression. *)
Definition checkReturn (callee : DefinedFunction) : M unit :=
  match getReturnValue callee with
  | IdentifierNode getSymbol =>
      own <- Scope_.ownEntries (getScope callee) ;;
      if bool_decide (is_Some (own !! getSymbol))
      then scrapRuntimeError (escapeMessage (name callee))
      else ret tt
  | _ => ret tt
  end.

(** Lines 138-143: release of the scope, then the return value. *)
Definition releaseAndReturn (this : Self) (callee : DefinedFunction)
    (scope : ScopeRef) : M ScrapValue :=
  Scope_.clean (getScope callee) ;;
  if isUndefined (getReturnValue callee)
  then ret ScrapUndefined
  else thisComputeValue this (getReturnValue callee) scope.

(** [execDefinedFunc(call, callee, scope, calleerScope)]. *)
Definition execDefinedFunc (this : Self) (call : CallNode)
    (callee : DefinedFunction) (scope calleerScope : ScopeRef) : M ScrapValue :=
  bindArguments this call callee calleerScope ;;
  runBody this callee scope ;;
  checkReturn callee ;;
  releaseAndReturn this callee scope.

(** [callee.getArgsCount && call.getArgs.length > callee.getArgsCount]:
    a count of zero is falsy, and [true] compares as one. *)
Definition exceedsArgsCount (c : ArgsCount) (received : nat) : bool :=
  match c with
  | Fixed O => false
  | Fixed n => bool_decide (n < received)
  | AnyCount => bool_decide (1 < received)
  end.

(** [execCallee(call, callee, scope)].  A callee that is no function
    reaches [execDefinedFunc], where [callee.getParams] is undefined
    and [params.length] cannot be read. *)
Definition execCallee (this : Self) (call : CallNode) (callee : ScrapValue)
    (scope : ScopeRef) : M ScrapValue :=
  match callee with
  | Function (Native f) =>
      (if exceedsArgsCount (getArgsCount f) (length (getArgs call))
       then notAMember "scrapRuntimeError"
       else ret tt) ;;
      args <- mapM (λ arg, thisComputeValue this arg scope) (getArgs call) ;;
      action host (getAction f) args
  | Function (Defined f) => execDefinedFunc this call f (getScope f) scope
  | _ => readOfUndefined "length"
  end.

(** [findCallee(call, whereIsCallee)]. *)
Definition findCallee (this : Self) (call : CallNode) (whereIsCallee : ScopeRef)
  : M ScrapValue :=
  callee <- Scope_.get whereIsCallee (getCallee call) ;;
  match callee with
  | None => notAMember "scrapReferenceError"
  | Some (VariableEntity v) =>
      if negb (isDefinedFn (getVal v))
      then notAMember "scrapRuntimeError"
      else ret (getAssignedValue v)
  | Some (FunctionEntity f) => ret (Function f)
  | Some (ModuleEntity m) => ret (Module_ m)
  end.

(** [computeCall(call, scope)]. *)
Definition computeCall (this : Self) (call : CallNode) (scope : ScopeRef)
  : M ScrapValue :=
  callee <- findCallee this call scope ;;
  execCallee this call callee scope.

(** [computeIdentifier(node, scope)]. *)
Definition computeIdentifier (this : Self) (getSymbol : string) (scope : ScopeRef)
  : M ScrapValue :=
  referred <- Scope_.getReference scope getSymbol ;;
  match referred with
  | None => notAMember "scrapReferenceError"
  | Some e =>
      let storedValue :=
        match e with
        | VariableEntity v => getAssignedValue v
        | FunctionEntity f => Function f
        | ModuleEntity m => Module_ m
        end in
      ret (match primitivePayload storedValue with
           | Some payload => Raw payload
           | None => storedValue
           end)
  end.

(** The loop of [computeLitObj]:
    [mappedValues.set(entry[0], this.computeValue(entry[1], scope))]. *)
Fixpoint fillPairs (this : Self) (scope : ScopeRef)
    (pairs : list (string * ValueNode)) (mappedValues : HostMap Slot)
  : M (HostMap Slot) :=
  match pairs with
  | [] => ret mappedValues
  | entry :: pairs' =>
      v <- thisComputeValue this (snd entry) scope ;;
      fillPairs this scope pairs' (Map_.set mappedValues (fst entry) (Bare v))
  end.

(** [computeLitObj(node, scope)]. *)
Definition computeLitObj (this : Self) (getPairs : list (string * ValueNode))
    (scope : ScopeRef) : M ScrapValue :=
  mappedValues <- fillPairs this scope getPairs Map_.empty ;;
  ret (Object (mkObject None (Some mappedValues))).

(** [computeLitArr(node, scope)]: the method has an empty body. *)
Definition computeLitArr (this : Self) (getItems : list ValueNode)
    (scope : ScopeRef) : M ScrapValue :=
  ret HostUndefined.

(** [computeValue(node, scope)].  [isFunctionExpr] is the kind test of
    function expressions. *)
Definition computeValue (this : Self) (node : ValueNode) (scope : ScopeRef)
  : M ScrapValue :=
  match node with
  | FunctionNode h => f <- computeFn host h scope ;; ret (Function f)
  | ReassignmentNode h => computeReassignment host this h scope
  | ModuleAccessNode h => computeModuleAccess host this h scope
  | ObjectDestructionNode h => computeObjectDestruction host this h scope
  | ObjectAccessNode h => computeObjectAccess host this h scope
  | BinaryExprNode h => notAMember "computeBinaryExpr"
  | CallExprNode callee args => computeCall this (mkCall callee args) scope
  | IdentifierNode getSymbol => computeIdentifier this getSymbol scope
  | LiteralObjectNode getPairs => computeLitObj this getPairs scope
  | LiteralArrayNode getItems => computeLitArr this getItems scope
  | StringNode v => ret (String_ v)
  | NumericNode v => ret (Integer (numerics.mkInteger v))
  | FloatNode v => ret (Float v)
  | CharNode v => ret (Char v)
  | OtherValueNode constructorName _ => unsupported constructorName
  end.

(** [computeEntity(node, scope)].  [isFunctionStmt] is the kind test
    of function declarations. *)
Definition computeEntity (this : Self) (node : EntityNode) (scope : ScopeRef)
  : M ScrapEntity :=
  match node with
  | FunctionStmtNode h => f <- computeFn host h scope ;; ret (FunctionEntity f)
  | ModuleNode h => computeMod host this h scope
  | VariableNode h => computeVar host this h scope
  | OtherEntityNode constructorName => unsupported constructorName
  end.

(** [computeControl(node, scope)]. *)
Definition computeControl (this : Self) (node : ControlStmtNode) (scope : ScopeRef)
  : M unit :=
  match node with
  | IfNode h => computeIf host this h scope
  | OtherControlNode _ => ret tt
  end.

(** [computeInstruction(node, fnScope)]. *)
Definition computeInstruction (this : Self) (node : Instruction)
    (fnScope : ScopeRef) : M unit :=
  match node with
  | InstrValue n => thisComputeValue this n fnScope ;; ret tt
  | InstrControl (IfNode h) => computeIf host this h fnScope
  | InstrControl (OtherControlNode _) => ret tt
  | InstrEntity n =>
      entity <- thisComputeEntity this n fnScope ;;
      addToScope entity fnScope ;;
      ret tt
  end.

(** The evaluator object.  Evaluation is depth-recursive on the host
    stack; [depth] bounds the nesting of re-entries through [this],
    and an evaluation that needs more is [OutOfFuel]. *)
Fixpoint interpreter (depth : nat) : Self :=
  match depth with
  | O => mkSelf (λ _ _ _, OutOfFuel) (λ _ _ _, OutOfFuel) (λ _ _ _, OutOfFuel)
  | S depth' =>
      mkSelf (computeValue (interpreter depth'))
             (computeInstruction (interpreter depth'))
             (computeEntity (interpreter depth'))
  end.

End Interpreter.

Arguments bindInOrder this calleeScope calleerScope ps args : simpl nomatch.

(** ** What the specification says of parameter binding

    The two relations below follow the words of the specification, to
    be compared with [bindInOrder] and [computeRestParameters]: each
    argument is evaluated in the caller's scope, in order, and the
    parameter is bound to the result in the callee's own scope.  They
    describe a call during which evaluating an argument leaves the
    callee's own table as it found it. *)

(** Binding [n] to [e] in the own table of scope [r]. *)
Definition declare (r : ScopeRef) (n : string) (e : ScrapEntity) (s : State)
  : State :=
  withEntries r (<[n := e]> (entriesOf s r)) s.

Definition mutableBinding (p : ScrapParam) (v : ScrapValue) : ScrapEntity :=
  VariableEntity (mkVariable false (pName p) v false).

Definition constBinding (p : ScrapParam) (v : ScrapValue) : ScrapEntity :=
  VariableEntity (mkVariable true (pName p) v false).

Inductive BoundInOrder (this : Self) (calleeScope calleerScope : ScopeRef)
  : list ScrapParam → list ValueNode → State → list ScrapValue → State → Prop :=
  | Bound_none s :
      BoundInOrder this calleeScope calleerScope [] [] s [] s
  | Bound_next p ps a args s v s1 vs s' :
      thisComputeValue this a calleerScope s = Returns v s1 →
      entriesOf s1 calleeScope = entriesOf s calleeScope →
      BoundInOrder this calleeScope calleerScope ps args
        (declare calleeScope (pName p) (mutableBinding p v) s1) vs s' →
      BoundInOrder this calleeScope calleerScope (p :: ps) (a :: args) s (v :: vs) s'.

Inductive CollectedInOrder (this : Self) (calleeScope calleerScope : ScopeRef)
  : list ValueNode → State → list ScrapValue → State → Prop :=
  | Collected_none s :
      CollectedInOrder this calleeScope calleerScope [] s [] s
  | Collected_next a args s v s1 vs s' :
      thisComputeValue this a calleerScope s = Returns v s1 →
      entriesOf s1 calleeScope = entriesOf s calleeScope →
      CollectedInOrder this calleeScope calleerScope args s1 vs s' →
      CollectedInOrder this calleeScope calleerScope (a :: args) s (v :: vs) s'.

(** The array Value a rest parameter is bound to. *)
Definition restArray (vs : list ScrapValue) : ScrapValue :=
  ScrapArray (mkProperty restMetaproperties <$> vs).

(** ** Sample programs *)

Module Samples.

(** A hosting layer none of whose collaborators is ever reached. *)
Definition absent {A} : M A := throw (TypeError "absent collaborator").

Definition noHost : Host :=
  mkHost (λ _ _, absent) (λ _ _ _, absent) (λ _ _ _, absent)
         (λ _ _ _, absent) (λ _ _ _, absent) (λ _ _ _, absent)
         (λ _ _ _, absent) (λ _ _ _, absent) (λ _ _, absent).

Definition main : ScopeRef := 0.
Definition own : ScopeRef := 1.

(** [fn f(a, ...rest) { return 0 }]. *)
Definition f : DefinedFunction :=
  mkDefined "f" false own [mkParam "a" false; mkParam "rest" true] []
            (NumericNode 0).

(** [fn g(a, b) { return 0 }]. *)
Definition g : DefinedFunction :=
  mkDefined "g" false own [mkParam "a" false; mkParam "b" false] []
            (NumericNode 0).

(** [fn h(a) { return a }]. *)
Definition h : DefinedFunction :=
  mkDefined "h" false own [mkParam "a" false] [] (IdentifierNode "a").

(** [fn k(a) { return undefined }]. *)
Definition k : DefinedFunction :=
  mkDefined "k" false own [mkParam "a" false] []
            (OtherValueNode "UndefinedNode" true).

(** The root scope declares [fn], whose own scope is still empty. *)
Definition declared (fn : DefinedFunction) : State :=
  mkState (<[main := mkScope "main" None
                       {[ name fn := FunctionEntity (Defined fn) ]}]>
           (<[own := mkScope (name fn) (Some main) ∅]> ∅)).

(** The root scope holds [const callback = g]. *)
Definition aliased : State :=
  mkState (<[main := mkScope "main" None
               {[ "callback" :=
                    VariableEntity
                      (mkVariable true "callback" (Function (Defined g)) false) ]}]>
           (<[own := mkScope "g" (Some main) ∅]> ∅)).

Definition lit (z : Z) : ValueNode := NumericNode z.
Definition int (z : Z) : ScrapValue := Integer (numerics.mkInteger z).

(** [f()], [f(1, 2, 3)], [f(1)], [f(1, f(2))], [g(1, g(2, 3))], [g(1)],
    [h(1)], [k(1)]. *)
Definition f_0 : CallNode := mkCall "f" [].
Definition f_1_2_3 : CallNode := mkCall "f" [lit 1; lit 2; lit 3].
Definition f_1 : CallNode := mkCall "f" [lit 1].
Definition f_1_f_2 : CallNode := mkCall "f" [lit 1; CallExprNode "f" [lit 2]].
Definition g_1_g_2_3 : CallNode :=
  mkCall "g" [lit 1; CallExprNode "g" [lit 2; lit 3]].
Definition g_1 : CallNode := mkCall "g" [lit 1].
Definition h_1 : CallNode := mkCall "h" [lit 1].
Definition k_1 : CallNode := mkCall "k" [lit 1].

Definition g_1_2 : CallNode := mkCall "g" [lit 1; lit 2].

(** [fn d(a, a) { return 0 }] and the call [d(1, 2)]. *)
Definition d : DefinedFunction :=
  mkDefined "d" false own [mkParam "a" false; mkParam "a" false] []
            (NumericNode 0).
Definition d_1_2 : CallNode := mkCall "d" [lit 1; lit 2].

(** [g]'s scope while an earlier call of [g] is still running: it
    holds that call's [a = 9]. *)
Definition reentered : State :=
  declare own "a" (VariableEntity (mkVariable false "a" (int 9) false))
          (declared g).

(** An object whose prototype binds [x] while its own table is empty. *)
Definition base : ScrapObject :=
  mkObject None
    (Some (Map_.set Map_.empty "x"
             (Described (mkProperty restMetaproperties (int 7))))).
Definition derived : ScrapObject := mkObject (Some base) (Some Map_.empty).

End Samples.

(** ** Further operations of the value model *)

Definition newline : string := String (Ascii.ascii_of_nat 10) EmptyString.

(** [" ".repeat(n)]. *)
Fixpoint spaces (n : nat) : string :=
  match n with
  | O => ""
  | S n' => " " +:+ spaces n'
  end.

(** [formatObject(deep)] (commons.ts), on [arr = Array.from(this.value)],
    the entries of the table in insertion order.  The rendering of one
    entry's value, [stringWithDeep] on line 95, calls the [format]
    methods of the Value classes and is taken as given. *)
Section Rendering.

Variable stringWithDeep : nat → Slot → string.

(** The loop over [arr.entries()]; [(idx + 1) === arr.length] holds at
    the last entry. *)
Fixpoint formatEntries (deep : nat) (isMultiline : bool)
    (arr : list (string * Slot)) : string :=
  match arr with
  | [] => ""
  | entry :: arr' =>
      let formatedString :=
        spaces deep +:+ " " +:+ fst entry +:+ ": "
          +:+ stringWithDeep deep (snd entry) in
      match arr' with
      | [] => formatedString +:+ " "
      | _ =>
          (if isMultiline
           then formatedString +:+ "," +:+ newline
           else formatedString +:+ ",")
            +:+ formatEntries deep isMultiline arr'
      end
  end.

Definition formatObject (deep : nat) (arr : list (string * Slot)) : string :=
  let isMultiline := bool_decide (2 < length arr) in
  (if isMultiline then "{" +:+ newline else "{")
    +:+ formatEntries deep isMultiline arr
    +:+ (if isMultiline then newline else spaces deep) +:+ "}".

End Rendering.

(** How often a character occurs in a string. *)
Fixpoint occurrences (c : Ascii.ascii) (s : string) : nat :=
  match s with
  | EmptyString => 0
  | String c' s' => (if Ascii.eqb c c' then 1 else 0) + occurrences c s'
  end.

(** The table [computeLitObj] has filled once the values [vs] of the
    pairs are known: one [Map.set] per pair, in source order. *)
Definition filled (keys : list string) (vs : list ScrapValue)
    (mappedValues : HostMap Slot) : HostMap Slot :=
  foldl (λ m kv, Map_.set m (fst kv) (Bare (snd kv))) mappedValues
        (zip keys vs).

Module MoreSamples.

(** [String(this.value)] of an integer payload. *)
Definition showZ (z : Z) : string := NilZero.string_of_int (Z.to_int z).

(** Entries whose values are Integers behind descriptors. *)
Definition renderInteger (deep : nat) (slot : Slot) : string :=
  match slot with
  | Described (mkProperty _ (Integer i)) => showZ (numerics.getValue i)
  | _ => "?"
  end.

Definition entry (k : string) (z : Z) : string * Slot :=
  (k, Described (mkProperty restMetaproperties (Samples.int z))).

(** [{ a: 1 }] and [{ a: 1, b: 2, c: 3 }]. *)
Definition one : list (string * Slot) := [entry "a" 1].
Definition three : list (string * Slot) := [entry "a" 1; entry "b" 2; entry "c" 3].

(** An object that binds [u] to the Undefined value. *)
Definition explicitUndefined : ScrapObject :=
  mkObject None
    (Some (Map_.set Map_.empty "u"
             (Described (mkProperty restMetaproperties ScrapUndefined)))).

(** A root scope that holds [var n = 5] and [fn g], and an empty child
    scope of it. *)
Definition child : ScopeRef := 2.
Definition scoped : State :=
  mkState (<[Samples.main := mkScope "main" None
               {[ "n" := VariableEntity
                           (mkVariable false "n" (Samples.int 5) false);
                  "g" := FunctionEntity (Defined Samples.g) ]}]>
           (<[Samples.own := mkScope "g" (Some Samples.main) ∅]>
            (<[child := mkScope "block" (Some Samples.main) ∅]> ∅))).

Definition shadow : ScrapEntity :=
  VariableEntity (mkVariable false "n" (Samples.int 6) false).

(** A native function of fixed arity two, and a host whose callable
    returns the number of values it receives. *)
Definition pair : ScrapNative := mkNative "pair" false 0 (Fixed 2).

Definition countingHost : Host :=
  mkHost (λ _ _, Samples.absent) (λ _ _ _, Samples.absent)
         (λ _ _ _, Samples.absent) (λ _ _ _, Samples.absent)
         (λ _ _ _, Samples.absent) (λ _ _ _, Samples.absent)
         (λ _ _ _, Samples.absent) (λ _ _ _, Samples.absent)
         (λ _ vs, ret (Samples.int (Z.of_nat (length vs)))).

(** [fn broken() { unknown(); 7; return 0 }]: the first instruction
    calls a name no scope binds. *)
Definition broken : DefinedFunction :=
  mkDefined "broken" false Samples.own []
            [InstrValue (CallExprNode "unknown" []); InstrValue (Samples.lit 7)]
            (NumericNode 0).

(** A host whose variable declarations all declare [a], holding the
    number of the declaration. *)
Definition declaringHost : Host :=
  mkHost (λ _ _, Samples.absent) (λ _ _ _, Samples.absent)
         (λ _ _ _, Samples.absent) (λ _ _ _, Samples.absent)
         (λ _ _ _, Samples.absent) (λ _ _ _, Samples.absent)
         (λ _ _ _, Samples.absent)
         (λ _ h _, ret (VariableEntity
                          (mkVariable false "a" (Samples.int (Z.of_nat h)) false)))
         (λ _ _, Samples.absent).

(** The literal [{ a: [1] }]. *)
Definition holdingArray : list (string * ValueNode) :=
  [("a", LiteralArrayNode [Samples.lit 1])].

(** The literal [{ a: 1, b: 2 }]. *)
Definition literal : list (string * ValueNode) :=
  [("a", Samples.lit 1); ("b", Samples.lit 2)].

End MoreSamples.

(** * Properties *)

(** ** Integers *)

Lemma nearestDouble_exact (z : Z) :
  (- 2 ^ 53 ≤ z ≤ 2 ^ 53)%Z → numerics.nearestDouble z = z.
Proof.
  intros Hz.
  destruct (decide (z = 2 ^ 53)%Z) as [-> | Hhigh]; [vm_compute; reflexivity |].
  destruct (decide (z = - 2 ^ 53)%Z) as [-> | Hlow]; [vm_compute; reflexivity |].
  unfold numerics.nearestDouble.
  replace (Z.abs z <? 2 ^ 53)%Z with true; [reflexivity |].
  symmetry. apply Z.ltb_lt. lia.
Qed.

(** C1 (as the code has it): for every Integer [v] in the range where
    the host counts exactly ([|v| < 2^53]), [increment] returns a new
    Integer that holds [v], not [v+1], and leaves [v+1] stored in the
    receiver; [decrement] returns a new Integer that holds [v] and
    leaves [v-1] stored in the receiver. *)
Theorem increment_decrement_postfix (v : Z) :
  (- 2 ^ 53 < v < 2 ^ 53)%Z →
  numerics.increment (numerics.mkInteger v)
    = (numerics.mkInteger v, numerics.mkInteger (v + 1))
  ∧ numerics.decrement (numerics.mkInteger v)
    = (numerics.mkInteger v, numerics.mkInteger (v - 1)).
Proof.
  intros Hv. unfold numerics.increment, numerics.decrement. simpl.
  rewrite !nearestDouble_exact by lia. split; reflexivity.
Qed.

Lemma increment_decrement_postfix_witness :
  numerics.increment (numerics.mkInteger 5)
    = (numerics.mkInteger 5, numerics.mkInteger 6)
  ∧ numerics.decrement (numerics.mkInteger 5)
    = (numerics.mkInteger 5, numerics.mkInteger 4).
Proof.
  apply (increment_decrement_postfix 5). split; reflexivity.
Defined.

(** From [2^53] on the host's [+ 1] is lost in rounding: the receiver
    keeps its payload. *)
Example increment_at_the_edge :
  numerics.increment (numerics.mkInteger (2 ^ 53))
    = (numerics.mkInteger (2 ^ 53), numerics.mkInteger (2 ^ 53))
  ∧ numerics.decrement (numerics.mkInteger (- 2 ^ 53))
    = (numerics.mkInteger (- 2 ^ 53), numerics.mkInteger (- 2 ^ 53)).
Proof. split; vm_compute; reflexivity. Qed.

(** ** Objects *)

Lemma get_with_table p t n :
  ScrapObj.get (mkObject p (Some t)) n
    = Normal (match bindings t !! n with
              | Some prop =>
                  if truthySlot prop then slotValue prop else ScrapUndefined
              | None => ScrapUndefined
              end).
Proof. reflexivity. Qed.

Lemma has_with_table p t n :
  ScrapObj.has (mkObject p (Some t)) n
    = Normal (bool_decide (is_Some (bindings t !! n))).
Proof. reflexivity. Qed.

(** C2 (as the spec states it, refuted): [get] does not fall back on
    the prototype.  An object with an empty own table and a prototype
    that binds [x] answers Undefined for [x]. *)
Lemma get_ignores_prototype :
  ¬ (∀ (o p : ScrapObject) (n : string) (d : ScrapObjectProperty),
        prototype o = Some p →
        entries o !! n = None →
        entries p !! n = Some (Described d) →
        ScrapObj.get o n = Normal (value d)).
Proof.
  intros claim.
  specialize (claim Samples.derived Samples.base "x"
                (mkProperty restMetaproperties (Samples.int 7))
                eq_refl eq_refl eq_refl).
  vm_compute in claim. discriminate claim.
Qed.

(** C2 (amended): on an object that carries a property table, [get]
    is decided by the object's own table alone.  It returns the value
    of the descriptor bound to [n] there, the Undefined sentinel when
    [n] is absent from the own table, and the same answer whatever
    prototype the object has. *)
Theorem get_own_table_only (p : option ScrapObject) (t : HostMap Slot)
    (n : string) :
  (∀ d, bindings t !! n = Some (Described d) →
        ScrapObj.get (mkObject p (Some t)) n = Normal (value d))
  ∧ (bindings t !! n = None →
     ScrapObj.get (mkObject p (Some t)) n = Normal ScrapUndefined)
  ∧ (∀ p', ScrapObj.get (mkObject p' (Some t)) n
           = ScrapObj.get (mkObject p (Some t)) n).
Proof.
  rewrite get_with_table.
  split; [| split; [| reflexivity]].
  - intros d ->. reflexivity.
  - intros ->. reflexivity.
Qed.

Lemma get_own_table_only_witness :
  ScrapObj.get Samples.base "x" = Normal (Samples.int 7)
  ∧ ScrapObj.get Samples.derived "x" = Normal ScrapUndefined.
Proof.
  split.
  - apply (proj1 (get_own_table_only None
                    (Map_.set Map_.empty "x"
                       (Described (mkProperty restMetaproperties
                                     (Samples.int 7)))) "x")
             (mkProperty restMetaproperties (Samples.int 7))).
    vm_compute. reflexivity.
  - apply (proj1 (proj2 (get_own_table_only (Some Samples.base)
                           Map_.empty "x"))).
    vm_compute. reflexivity.
Defined.

(** C9 (as the code has it): on an object that carries a property
    table, after [o.set(k, d)] the call [o.get(k)] returns [d.value]
    and [o.has(k)] is true, whatever [o] held before, and [set] has
    written [o]'s own table only: the prototype and the other keys are
    as they were.  On a function object, which is an Object without a
    table, [set], [get] and [has] each throw. *)
Theorem set_then_get_has (k : string) (d : ScrapObjectProperty) :
  (∀ p t,
     ∃ o', ScrapObj.set (mkObject p (Some t)) k d = Normal o'
         ∧ ScrapObj.get o' k = Normal (value d)
         ∧ ScrapObj.has o' k = Normal true
         ∧ prototype o' = p
         ∧ delete k (entries o') = delete k (bindings t))
  ∧ (∀ f,
       ScrapObj.set (asObject f) k d = Abrupt (cannotRead "set")
       ∧ ScrapObj.get (asObject f) k = Abrupt (cannotRead "get")
       ∧ ScrapObj.has (asObject f) k = Abrupt (cannotRead "has")).
Proof.
  split.
  - intros p t. exists (mkObject p (Some (Map_.set t k (Described d)))).
    split; [reflexivity |].
    rewrite get_with_table, has_with_table. cbn [Map_.set bindings].
    rewrite lookup_insert_eq.
    split; [reflexivity |].
    split; [f_equal; apply bool_decide_eq_true_2; eauto |].
    split; [reflexivity | apply delete_insert_eq].
  - intros f. repeat split.
Qed.

(** C10 (as the code has it): on an object that carries a property
    table, [o.has(n)] is true exactly when [n] is a key of [o]'s own
    table, and a name that only the prototype chain binds is reported
    absent.  On a function object, which is an Object without a table,
    [has] throws. *)
Theorem has_own_table_only (n : string) :
  (∀ p t,
     (ScrapObj.has (mkObject p (Some t)) n = Normal true
      ↔ n ∈ dom (bindings t))
     ∧ (bindings t !! n = None →
        ScrapObj.has (mkObject p (Some t)) n = Normal false)
     ∧ (∀ p', ScrapObj.has (mkObject p' (Some t)) n
              = ScrapObj.has (mkObject p (Some t)) n))
  ∧ (∀ f, ScrapObj.has (asObject f) n = Abrupt (cannotRead "has")).
Proof.
  split; [| reflexivity].
  intros p t. rewrite has_with_table.
  split; [| split; [| reflexivity]].
  - rewrite elem_of_dom. split.
    + intros [= H]. by apply bool_decide_eq_true in H.
    + intros H. f_equal. by apply bool_decide_eq_true_2.
  - intros ->. reflexivity.
Qed.

Lemma has_own_table_only_witness :
  ScrapObj.has Samples.base "x" = Normal true
  ∧ ScrapObj.has Samples.derived "x" = Normal false
  ∧ ScrapObj.has (asObject (Defined Samples.g)) "x"
    = Abrupt (TypeError "Cannot read properties of undefined (reading 'has')").
Proof.
  split; [| split].
  - apply (proj1 (proj1 (has_own_table_only "x") None
                    (Map_.set Map_.empty "x"
                       (Described (mkProperty restMetaproperties
                                     (Samples.int 7)))))).
    apply elem_of_dom.
    exists (Described (mkProperty restMetaproperties (Samples.int 7))).
    vm_compute. reflexivity.
  - apply (proj1 (proj2 (proj1 (has_own_table_only "x")
                           (Some Samples.base) Map_.empty))).
    vm_compute. reflexivity.
  - apply (proj2 (has_own_table_only "x")).
Defined.

(** ** Value dispatch *)

(** C3 (as the code has it): an array literal that reaches value
    dispatch evaluates none of its elements and yields no array: the
    result is the host's [undefined] and the state is untouched,
    whatever the elements are and whatever evaluating them would do. *)
Theorem array_literal_yields_nothing (host : Host) (VERSION : string)
    (this : Self) (items : list ValueNode) (scope : ScopeRef) (s : State) :
  computeValue host VERSION this (LiteralArrayNode items) scope s
    = Returns HostUndefined s.
Proof. reflexivity. Qed.

(** ** Resolving the callee *)

Lemma findCallee_variable (this : Self) (call : CallNode) (scope : ScopeRef)
    (s : State) (v : ScrapVariable) :
  Scope_.walk (S (size (scopes s))) s scope (getCallee call)
    = Some (VariableEntity v) →
  findCallee this call scope s
    = Throws (TypeError "this.scrapRuntimeError is not a function") s.
Proof.
  intros H. unfold findCallee, bind, Scope_.get, Scope_.getReference.
  rewrite H. reflexivity.
Qed.

Lemma findCallee_function (this : Self) (call : CallNode) (scope : ScopeRef)
    (s : State) (f : ScrapFunction) :
  Scope_.walk (S (size (scopes s))) s scope (getCallee call)
    = Some (FunctionEntity f) →
  findCallee this call scope s = Returns (Function f) s.
Proof.
  intros H. unfold findCallee, bind, Scope_.get, Scope_.getReference.
  rewrite H. reflexivity.
Qed.

Lemma findCallee_absent (this : Self) (call : CallNode) (scope : ScopeRef)
    (s : State) :
  Scope_.walk (S (size (scopes s))) s scope (getCallee call) = None →
  findCallee this call scope s
    = Throws (TypeError "this.scrapReferenceError is not a function") s.
Proof.
  intros H. unfold findCallee, bind, Scope_.get, Scope_.getReference.
  rewrite H. reflexivity.
Qed.

(** C8 (as the code has it): with [const callback = g] in the caller's
    scope, [g] a user-defined function, the call [callback()] does not
    proceed: [findCallee] reads the undeclared getter [getVal] of the
    Variable, takes the value for not callable and fails. *)
Theorem findCallee_rejects_function_variable (this : Self) :
  findCallee this (mkCall "callback" []) Samples.main Samples.aliased
    = Throws (TypeError "this.scrapRuntimeError is not a function")
             Samples.aliased.
Proof. vm_compute. reflexivity. Qed.

(** ** The store of scopes *)

Lemma entriesOf_withEntries (r : ScopeRef) (t : gmap string ScrapEntity) (s : State) :
  entriesOf (withEntries r t s) r = t.
Proof.
  unfold entriesOf, scopeAt, withEntries. simpl.
  rewrite lookup_insert_eq. reflexivity.
Qed.

Lemma entriesOf_withEntries_other (r r' : ScopeRef) (t : gmap string ScrapEntity)
    (s : State) :
  r ≠ r' → entriesOf (withEntries r t s) r' = entriesOf s r'.
Proof.
  intros Hne. unfold entriesOf, scopeAt, withEntries. simpl.
  rewrite lookup_insert_ne by done. reflexivity.
Qed.

Lemma entriesOf_declare (r : ScopeRef) (n : string) (e : ScrapEntity) (s : State) :
  entriesOf (declare r n e s) r = <[n := e]> (entriesOf s r).
Proof. apply entriesOf_withEntries. Qed.

Lemma addEntry_fresh (r : ScopeRef) (n : string) (e : ScrapEntity) (s : State) :
  entriesOf s r !! n = None →
  Scope_.addEntry r n e s = Returns true (declare r n e s).
Proof. intros H. unfold Scope_.addEntry. rewrite H. reflexivity. Qed.

Lemma addEntry_taken (r : ScopeRef) (n : string) (e e' : ScrapEntity) (s : State) :
  entriesOf s r !! n = Some e' →
  Scope_.addEntry r n e s = Returns false s.
Proof. intros H. unfold Scope_.addEntry. rewrite H. reflexivity. Qed.

Lemma clean_releases (r : ScopeRef) (s : State) :
  ∃ s', Scope_.clean r s = Returns tt s' ∧ entriesOf s' r = ∅
        ∧ ∀ r', r ≠ r' → entriesOf s' r' = entriesOf s r'.
Proof.
  eexists. split; [reflexivity |]. split.
  - apply entriesOf_withEntries.
  - intros r' Hne. by apply entriesOf_withEntries_other.
Qed.

(** ** Binding parameters *)

Section Binding.

Variable this : Self.
Variables calleeScope calleerScope : ScopeRef.

(** The loop binds what the specification says it binds, when no
    parameter name is taken in the callee's table and none repeats. *)
Lemma bindInOrder_bound ps args s vs s' :
  BoundInOrder this calleeScope calleerScope ps args s vs s' →
  NoDup (pName <$> ps) →
  (∀ p, p ∈ ps → entriesOf s calleeScope !! pName p = None) →
  bindInOrder this calleeScope calleerScope ps args s = Returns tt s'
  ∧ (∀ i p v, ps !! i = Some p → vs !! i = Some v →
       entriesOf s' calleeScope !! pName p = Some (mutableBinding p v))
  ∧ (∀ n, n ∉ pName <$> ps →
       entriesOf s' calleeScope !! n = entriesOf s calleeScope !! n).
Proof.
  induction 1 as [s | p ps a args s v s1 vs s' Heval Hframe Hrest IH];
    intros Hnodup Hfresh.
  - split; [reflexivity |]. split; [| reflexivity].
    intros i p v Hp. rewrite lookup_nil in Hp. discriminate.
  - rewrite fmap_cons in Hnodup. apply NoDup_cons in Hnodup as [Hhead Htail].
    assert (Hp : entriesOf s1 calleeScope !! pName p = None).
    { rewrite Hframe. apply Hfresh. left. }
    destruct IH as (Hrun & Hbound & Hother); [exact Htail | |].
    { intros p' Hp'. rewrite entriesOf_declare, lookup_insert_ne.
      - rewrite Hframe. apply Hfresh. by right.
      - intros Heq. apply Hhead. rewrite Heq. by apply list_elem_of_fmap_2. }
    split; [| split].
    + simpl. unfold bind at 1. rewrite Heval.
      unfold bind at 1. rewrite (addEntry_fresh _ _ _ _ Hp). exact Hrun.
    + intros [| i] q w Hq Hw; simpl in Hq, Hw.
      * injection Hq as <-. injection Hw as <-.
        rewrite (Hother _ Hhead), entriesOf_declare. apply lookup_insert_eq.
      * by apply (Hbound i).
    + intros n Hn. rewrite fmap_cons in Hn. apply not_elem_of_cons in Hn as [Hne Hn].
      rewrite (Hother _ Hn), entriesOf_declare, lookup_insert_ne by done.
      by rewrite Hframe.
Qed.

Lemma BoundInOrder_length ps args s vs s' :
  BoundInOrder this calleeScope calleerScope ps args s vs s' →
  length args = length ps ∧ length vs = length ps.
Proof. induction 1; simpl; [done | lia]. Qed.

(** Collecting the trailing arguments of a rest parameter. *)
Lemma mapM_collected args s vs s' :
  CollectedInOrder this calleeScope calleerScope args s vs s' →
  mapM (λ node, v <- thisComputeValue this node calleerScope ;;
                ret (mkProperty restMetaproperties v)) args s
    = Returns (mkProperty restMetaproperties <$> vs) s'
  ∧ entriesOf s' calleeScope = entriesOf s calleeScope.
Proof.
  induction 1 as [s | a args s v s1 vs s' Heval Hframe Hrest [IHrun IHframe]].
  - split; reflexivity.
  - split; [| by rewrite IHframe].
    simpl. unfold bind at 1. unfold bind at 1. rewrite Heval.
    unfold ret at 1. unfold bind at 1. rewrite IHrun. reflexivity.
Qed.

(** A name the callee's table already holds keeps its entry: the
    argument is evaluated and the new binding is dropped. *)
Lemma bindInOrder_taken p a s v s1 e :
  thisComputeValue this a calleerScope s = Returns v s1 →
  entriesOf s1 calleeScope !! pName p = Some e →
  bindInOrder this calleeScope calleerScope [p] [a] s = Returns tt s1.
Proof.
  intros Heval Htaken. simpl. unfold bind at 1. rewrite Heval.
  unfold bind at 1. rewrite (addEntry_taken _ _ _ _ _ Htaken). reflexivity.
Qed.

End Binding.

(** ** Calls of user-defined functions *)

(** C5 (as the spec states it, refuted): in [g(1, g(2, 3))], with
    [fn g(a, b) { return 0 }], the outer call supplies two arguments
    for two parameters, yet once its binding phase is over the
    function's scope holds no [a]: the inner call released the scope
    the two calls share. *)
Lemma nested_call_loses_positional_binding :
  lastIsRest (getParams Samples.g) = false
  ∧ length (getArgs Samples.g_1_g_2_3) = length (getParams Samples.g)
  ∧ ∃ s', bindArguments (interpreter Samples.noHost "0" 3) Samples.g_1_g_2_3
            Samples.g Samples.main (Samples.declared Samples.g)
          = Returns tt s'
        ∧ entriesOf s' (getScope Samples.g) !! "a" = None.
Proof.
  split; [reflexivity |]. split; [reflexivity |].
  eexists. split; [vm_compute; reflexivity | vm_compute; reflexivity].
Qed.

(** C5 (amended): in a call of a user-defined function with no rest
    parameter, [M] arguments for [N] parameters with [M ≠ N] fail with
    the arity error that reports [N] and [M].  With [M = N], pairwise
    distinct parameter names none of which the function's own scope
    holds when the call starts, and arguments whose evaluation (in the
    caller's scope, in order) leaves that scope's table alone, the
    binding phase completes and the function's own scope binds each
    parameter to a mutable Variable holding its argument's value; the
    body starts from that state. *)
Theorem positional_call_arity_and_binding (this : Self) (call : CallNode)
    (callee : DefinedFunction) (scope calleerScope : ScopeRef) (s : State) :
  lastIsRest (getParams callee) = false →
  (length (getArgs call) ≠ length (getParams callee) →
   execDefinedFunc this call callee scope calleerScope s
     = Throws (RuntimeError (arityMessage (name callee)
                               (length (getParams callee))
                               (length (getArgs call)))) s)
  ∧ (∀ vs s',
       length (getArgs call) = length (getParams callee) →
       NoDup (pName <$> getParams callee) →
       (∀ p, p ∈ getParams callee →
             entriesOf s (getScope callee) !! pName p = None) →
       BoundInOrder this (getScope callee) calleerScope
                    (getParams callee) (getArgs call) s vs s' →
       bindArguments this call callee calleerScope s = Returns tt s'
       ∧ (∀ i p v, getParams callee !! i = Some p → vs !! i = Some v →
            entriesOf s' (getScope callee) !! pName p
              = Some (VariableEntity (mkVariable false (pName p) v false)))
       ∧ execDefinedFunc this call callee scope calleerScope s
           = (runBody this callee scope ;; checkReturn callee ;;
              releaseAndReturn this callee scope) s').
Proof.
  intros Hrest. split.
  - intros Hne. unfold execDefinedFunc, bindArguments, bind.
    rewrite Hrest, bool_decide_eq_true_2 by done. reflexivity.
  - intros vs s' Hlen Hnodup Hfresh Hbound.
    destruct (bindInOrder_bound _ _ _ _ _ _ _ _ Hbound Hnodup Hfresh)
      as (Hrun & Hlookup & _).
    assert (Hphase : bindArguments this call callee calleerScope s = Returns tt s').
    { unfold bindArguments. rewrite Hrest, bool_decide_eq_false_2; [done |].
      intros Hne. by apply Hne. }
    split; [exact Hphase |]. split; [exact Hlookup |].
    unfold execDefinedFunc. unfold bind at 1. rewrite Hphase. reflexivity.
Qed.

Lemma positional_call_arity_and_binding_witness :
  execDefinedFunc (interpreter Samples.noHost "0" 1) Samples.g_1 Samples.g
      Samples.own Samples.main (Samples.declared Samples.g)
    = Throws (RuntimeError "'g' expects 2 arguments, but received 1")
             (Samples.declared Samples.g)
  ∧ ∃ s', bindArguments (interpreter Samples.noHost "0" 1)
            (mkCall "g" [Samples.lit 1; Samples.lit 2]) Samples.g Samples.main
            (Samples.declared Samples.g) = Returns tt s'
        ∧ entriesOf s' Samples.own !! "b"
          = Some (VariableEntity (mkVariable false "b" (Samples.int 2) false)).
Proof.
  split.
  - apply (proj1 (positional_call_arity_and_binding
                    (interpreter Samples.noHost "0" 1) Samples.g_1 Samples.g
                    Samples.own Samples.main (Samples.declared Samples.g)
                    eq_refl)).
    simpl. lia.
  - eexists.
    edestruct (proj2 (positional_call_arity_and_binding
                        (interpreter Samples.noHost "0" 1)
                        (mkCall "g" [Samples.lit 1; Samples.lit 2]) Samples.g
                        Samples.own Samples.main (Samples.declared Samples.g)
                        eq_refl)
                     [Samples.int 1; Samples.int 2])
      as (Hrun & Hlookup & _).
    + reflexivity.
    + simpl. apply NoDup_cons_2; [| apply NoDup_singleton].
      intros H%list_elem_of_singleton. discriminate H.
    + intros p Hp. simpl in Hp.
      apply elem_of_cons in Hp as [-> | Hp]; [vm_compute; reflexivity |].
      apply elem_of_cons in Hp as [-> | Hp]; [vm_compute; reflexivity |].
      by apply elem_of_nil in Hp.
    + simpl. eapply Bound_next; [reflexivity | reflexivity |].
      eapply Bound_next; [reflexivity | reflexivity |].
      apply Bound_none.
    + split; [exact Hrun |].
      apply (Hlookup 1 (mkParam "b" false) (Samples.int 2)); reflexivity.
Defined.

(** The two other ways a parameter misses its argument: a name the
    shared scope already holds keeps the earlier call's value, and of
    two parameters of one name only the first is bound. *)
Example taken_name_is_not_rebound :
  ∃ s', bindArguments (interpreter Samples.noHost "0" 1) Samples.g_1_2
          Samples.g Samples.main Samples.reentered = Returns tt s'
      ∧ entriesOf s' Samples.own !! "a"
        = Some (VariableEntity (mkVariable false "a" (Samples.int 9) false)).
Proof.
  eexists. split; [vm_compute; reflexivity | vm_compute; reflexivity].
Qed.

Example repeated_name_binds_first_argument :
  ∃ s', bindArguments (interpreter Samples.noHost "0" 1) Samples.d_1_2
          Samples.d Samples.main (Samples.declared Samples.d) = Returns tt s'
      ∧ entriesOf s' Samples.own
        = {[ "a" := VariableEntity (mkVariable false "a" (Samples.int 1) false) ]}.
Proof.
  eexists. split; [vm_compute; reflexivity | vm_compute; reflexivity].
Qed.

Lemma lastIsRest_last (params : list ScrapParam) (restParam : ScrapParam) :
  last params = Some restParam → lastIsRest params = isRest restParam.
Proof. intros H. unfold lastIsRest. rewrite H. reflexivity. Qed.

Lemma prefix_of_last (params : list ScrapParam) (restParam : ScrapParam) :
  last params = Some restParam →
  params = (take (length params - 1) params ++ [restParam])%list.
Proof.
  intros [prefix ->]%last_Some. rewrite length_app. simpl.
  replace (length prefix + 1 - 1) with (length prefix) by lia.
  by rewrite take_app_length.
Qed.

(** C4 (as the spec states it, refuted): in [f(1, f(2))], with
    [fn f(a, ...rest) { return 0 }], the binding phase of the outer
    call completes and leaves the function's scope without [a]. *)
Lemma nested_call_loses_rest_prefix_binding :
  lastIsRest (getParams Samples.f) = true
  ∧ ∃ s', bindArguments (interpreter Samples.noHost "0" 3) Samples.f_1_f_2
            Samples.f Samples.main (Samples.declared Samples.f)
          = Returns tt s'
        ∧ entriesOf s' (getScope Samples.f) !! "a" = None.
Proof.
  split; [reflexivity |].
  eexists. split; [vm_compute; reflexivity | vm_compute; reflexivity].
Qed.

(** C4 (amended): in a call of a user-defined function whose last
    parameter is flagged rest, fewer arguments than parameters before
    the last fail with the arity error.  With pairwise distinct
    parameter names none of which the function's own scope holds when
    the call starts, and arguments whose evaluation (in the caller's
    scope, in order) leaves that scope's table alone, the binding
    phase completes: each parameter before the last is bound to a
    mutable Variable holding the value of the argument at its
    position, and the rest parameter to a const Variable holding one
    array of the values of the trailing arguments, in order; the body
    starts from that state. *)
Theorem rest_call_arity_and_binding (this : Self) (call : CallNode)
    (callee : DefinedFunction) (scope calleerScope : ScopeRef) (s : State)
    (restParam : ScrapParam) :
  last (getParams callee) = Some restParam →
  isRest restParam = true →
  (length (getArgs call) < length (getParams callee) - 1 →
   execDefinedFunc this call callee scope calleerScope s
     = Throws (RuntimeError (restArityMessage (name callee)
                               (length (getParams callee) - 1)
                               (length (getArgs call)))) s)
  ∧ (∀ vs s1 ws s2,
       NoDup (pName <$> getParams callee) →
       (∀ p, p ∈ getParams callee →
             entriesOf s (getScope callee) !! pName p = None) →
       BoundInOrder this (getScope callee) calleerScope
         (take (length (getParams callee) - 1) (getParams callee))
         (take (length (getParams callee) - 1) (getArgs call)) s vs s1 →
       CollectedInOrder this (getScope callee) calleerScope
         (drop (length (getParams callee) - 1) (getArgs call)) s1 ws s2 →
       ∃ s',
         bindArguments this call callee calleerScope s = Returns tt s'
         ∧ (∀ i p v,
              take (length (getParams callee) - 1) (getParams callee) !! i = Some p →
              vs !! i = Some v →
              entriesOf s' (getScope callee) !! pName p
                = Some (VariableEntity (mkVariable false (pName p) v false)))
         ∧ entriesOf s' (getScope callee) !! pName restParam
             = Some (VariableEntity
                       (mkVariable true (pName restParam) (restArray ws) false))
         ∧ execDefinedFunc this call callee scope calleerScope s
             = (runBody this callee scope ;; checkReturn callee ;;
                releaseAndReturn this callee scope) s').
Proof.
  intros Hlast Hrest.
  assert (HisRest : lastIsRest (getParams callee) = true).
  { by rewrite (lastIsRest_last _ _ Hlast). }
  pose proof (prefix_of_last _ _ Hlast) as Hparams.
  set (restIdx := length (getParams callee) - 1) in *.
  assert (Hprefix : length (take restIdx (getParams callee)) = restIdx).
  { rewrite length_take. lia. }
  split.
  - intros Hfew. unfold execDefinedFunc, bindArguments, bind.
    rewrite HisRest. unfold computeRestParameters. rewrite Hlast.
    fold restIdx. rewrite bool_decide_eq_true_2.
    + rewrite Hprefix, length_take, Nat.min_r by lia. reflexivity.
    + rewrite Hprefix, length_take. lia.
  - intros vs s1 ws s2 Hnodup Hfresh Hbound Hcollected.
    rewrite Hparams, fmap_app in Hnodup.
    apply NoDup_app in Hnodup as (Hnodup & Hapart & _).
    assert (Hnotin : pName restParam ∉ pName <$> take restIdx (getParams callee)).
    { intros Hin. apply (Hapart _ Hin). simpl. left. }
    destruct (BoundInOrder_length _ _ _ _ _ _ _ _ Hbound) as [Hlen _].
    destruct (bindInOrder_bound _ _ _ _ _ _ _ _ Hbound Hnodup)
      as (Hrun & Hlookup & Hother).
    { intros p Hp. apply Hfresh. rewrite Hparams. apply elem_of_app. by left. }
    destruct (mapM_collected _ _ _ _ _ _ _ Hcollected) as [Hmap Hframe].
    assert (Hfree : entriesOf s2 (getScope callee) !! pName restParam = None).
    { rewrite Hframe, (Hother _ Hnotin). apply Hfresh.
      rewrite Hparams. apply elem_of_app. right. left. }
    exists (declare (getScope callee) (pName restParam)
                    (constBinding restParam (restArray ws)) s2).
    assert (Hphase : bindArguments this call callee calleerScope s
                     = Returns tt (declare (getScope callee) (pName restParam)
                                     (constBinding restParam (restArray ws)) s2)).
    { unfold bindArguments. rewrite HisRest.
      unfold computeRestParameters. rewrite Hlast. fold restIdx.
      rewrite bool_decide_eq_false_2 by (intros Hne; by apply Hne).
      unfold bind at 1. rewrite Hrun.
      unfold bind at 1. rewrite Hmap.
      unfold bind at 1. rewrite (addEntry_fresh _ _ _ _ Hfree). reflexivity. }
    split; [exact Hphase |]. split; [| split].
    + intros i p v Hp Hv. rewrite entriesOf_declare, lookup_insert_ne.
      * rewrite Hframe. by apply (Hlookup i).
      * intros Heq. apply Hnotin. rewrite Heq.
        apply list_elem_of_fmap_2. by apply list_elem_of_lookup_2 in Hp.
    + rewrite entriesOf_declare. apply lookup_insert_eq.
    + unfold execDefinedFunc. unfold bind at 1. rewrite Hphase. reflexivity.
Qed.

(** [f()] fails on arity; [f(a, ...rest)] called as [f(1, 2, 3)] binds
    [a = 1] and [rest = [2, 3]], and called as [f(1)] binds [a = 1] and
    [rest = []]. *)
Lemma rest_call_arity_and_binding_witness :
  execDefinedFunc (interpreter Samples.noHost "0" 1) Samples.f_0 Samples.f
      Samples.own Samples.main (Samples.declared Samples.f)
    = Throws (RuntimeError
                "'f' expects from 1 to multiple arguments, but received 0")
             (Samples.declared Samples.f)
  ∧ (∃ s', bindArguments (interpreter Samples.noHost "0" 1) Samples.f_1_2_3
             Samples.f Samples.main (Samples.declared Samples.f) = Returns tt s'
         ∧ entriesOf s' Samples.own !! "a"
           = Some (VariableEntity (mkVariable false "a" (Samples.int 1) false))
         ∧ entriesOf s' Samples.own !! "rest"
           = Some (VariableEntity
                     (mkVariable true "rest"
                        (restArray [Samples.int 2; Samples.int 3]) false)))
  ∧ (∃ s', bindArguments (interpreter Samples.noHost "0" 1) Samples.f_1
             Samples.f Samples.main (Samples.declared Samples.f) = Returns tt s'
         ∧ entriesOf s' Samples.own !! "a"
           = Some (VariableEntity (mkVariable false "a" (Samples.int 1) false))
         ∧ entriesOf s' Samples.own !! "rest"
           = Some (VariableEntity (mkVariable true "rest" (restArray []) false))).
Proof.
  assert (Hnodup : NoDup (pName <$> getParams Samples.f)).
  { simpl. apply NoDup_cons_2; [| apply NoDup_singleton].
    intros H%list_elem_of_singleton. discriminate H. }
  assert (Hfresh : ∀ p, p ∈ getParams Samples.f →
            entriesOf (Samples.declared Samples.f) (getScope Samples.f)
              !! pName p = None).
  { intros p Hp. simpl in Hp.
    apply elem_of_cons in Hp as [-> | Hp]; [vm_compute; reflexivity |].
    apply elem_of_cons in Hp as [-> | Hp]; [vm_compute; reflexivity |].
    by apply elem_of_nil in Hp. }
  set (s1 := declare Samples.own "a"
               (VariableEntity (mkVariable false "a" (Samples.int 1) false))
               (Samples.declared Samples.f)).
  assert (Hfirst : BoundInOrder (interpreter Samples.noHost "0" 1)
            Samples.own Samples.main [mkParam "a" false] [Samples.lit 1]
            (Samples.declared Samples.f) [Samples.int 1] s1).
  { eapply Bound_next; [reflexivity | reflexivity |]. apply Bound_none. }
  split; [| split].
  - apply (proj1 (rest_call_arity_and_binding
                    (interpreter Samples.noHost "0" 1) Samples.f_0
                    Samples.f Samples.own Samples.main
                    (Samples.declared Samples.f) (mkParam "rest" true)
                    eq_refl eq_refl)).
    simpl. lia.
  - destruct (proj2 (rest_call_arity_and_binding
                       (interpreter Samples.noHost "0" 1) Samples.f_1_2_3
                       Samples.f Samples.own Samples.main
                       (Samples.declared Samples.f) (mkParam "rest" true)
                       eq_refl eq_refl)
                    [Samples.int 1] s1 [Samples.int 2; Samples.int 3] s1
                    Hnodup Hfresh Hfirst)
      as (s' & Hrun & Hprefix & Hlast & _).
    + simpl. eapply Collected_next; [reflexivity | reflexivity |].
      eapply Collected_next; [reflexivity | reflexivity |].
      apply Collected_none.
    + exists s'. split; [exact Hrun |]. split; [| exact Hlast].
      apply (Hprefix 0 (mkParam "a" false) (Samples.int 1)); reflexivity.
  - destruct (proj2 (rest_call_arity_and_binding
                       (interpreter Samples.noHost "0" 1) Samples.f_1
                       Samples.f Samples.own Samples.main
                       (Samples.declared Samples.f) (mkParam "rest" true)
                       eq_refl eq_refl)
                    [Samples.int 1] s1 [] s1 Hnodup Hfresh Hfirst)
      as (s' & Hrun & Hprefix & Hlast & _).
    + simpl. apply Collected_none.
    + exists s'. split; [exact Hrun |]. split; [| exact Hlast].
      apply (Hprefix 0 (mkParam "a" false) (Samples.int 1)); reflexivity.
Defined.

(** ** The escape check and the release of the scope *)

(** C6: in a call of a user-defined function whose binding phase and
    body have run, a return expression that is a bare identifier
    naming an entry of the function's own scope makes the call fail
    with the runtime error on locally scoped values, before the scope
    is released and before any value is returned; a return expression
    that is no bare identifier skips the check. *)
Theorem local_return_rejected (this : Self) (call : CallNode)
    (callee : DefinedFunction) (scope calleerScope : ScopeRef) (s s1 : State) :
  (bindArguments this call callee calleerScope ;; runBody this callee scope) s
    = Returns tt s1 →
  (∀ x, getReturnValue callee = IdentifierNode x →
        x ∈ dom (entriesOf s1 (getScope callee)) →
        execDefinedFunc this call callee scope calleerScope s
          = Throws (RuntimeError (escapeMessage (name callee))) s1)
  ∧ (isIdentifier (getReturnValue callee) = false →
     execDefinedFunc this call callee scope calleerScope s
       = releaseAndReturn this callee scope s1).
Proof.
  intros Hphases. unfold bind in Hphases.
  unfold execDefinedFunc.
  destruct (bindArguments this call callee calleerScope s) as [[] s0 | |] eqn:Hbind;
    try discriminate Hphases.
  split.
  - intros x Hret Hin. unfold bind at 1. rewrite Hbind.
    unfold bind at 1. rewrite Hphases.
    unfold bind at 1. unfold checkReturn. rewrite Hret.
    unfold bind, Scope_.ownEntries.
    rewrite bool_decide_eq_true_2 by (by apply elem_of_dom). reflexivity.
  - intros Hret. unfold bind at 1. rewrite Hbind.
    unfold bind at 1. rewrite Hphases.
    unfold bind at 1. unfold checkReturn.
    destruct (getReturnValue callee); try discriminate Hret; reflexivity.
Qed.

Lemma local_return_rejected_witness :
  execDefinedFunc (interpreter Samples.noHost "0" 1) Samples.h_1 Samples.h
      Samples.own Samples.main (Samples.declared Samples.h)
    = Throws (RuntimeError
                "You returned a locally scoped value in 'h', which will be destroyed after the execution ends")
        (declare Samples.own "a"
           (VariableEntity (mkVariable false "a" (Samples.int 1) false))
           (Samples.declared Samples.h))
  ∧ execDefinedFunc (interpreter Samples.noHost "0" 1) Samples.k_1 Samples.k
      Samples.own Samples.main (Samples.declared Samples.k)
    = Returns ScrapUndefined (Samples.declared Samples.k).
Proof.
  split.
  - apply (proj1 (local_return_rejected
                    (interpreter Samples.noHost "0" 1) Samples.h_1 Samples.h
                    Samples.own Samples.main (Samples.declared Samples.h)
                    _ eq_refl) "a" eq_refl).
    apply elem_of_dom. eexists. vm_compute. reflexivity.
  - rewrite (proj2 (local_return_rejected
                      (interpreter Samples.noHost "0" 1) Samples.k_1 Samples.k
                      Samples.own Samples.main (Samples.declared Samples.k)
                      (declare Samples.own "a"
                         (VariableEntity
                            (mkVariable false "a" (Samples.int 1) false))
                         (Samples.declared Samples.k))
                      eq_refl) eq_refl).
    vm_compute. reflexivity.
Defined.

(** C7: a call of a user-defined function returns [v] exactly when its
    binding phase, its body and the escape check complete, the
    function's own scope is then released, and, from the state in
    which that scope's table is empty, the return value is [v]: an
    Undefined value for the explicit undefined expression, otherwise
    the value of the return expression evaluated with the function's
    own scope. *)
Theorem scope_released_before_return (host : Host) (this : Self)
    (call : CallNode) (f : DefinedFunction) (calleerScope : ScopeRef)
    (s : State) (v : ScrapValue) (s' : State) :
  execCallee host this call (Function (Defined f)) calleerScope s = Returns v s'
  ↔ ∃ s1 s2,
      (bindArguments this call f calleerScope ;;
       runBody this f (getScope f) ;;
       checkReturn f) s = Returns tt s1
      ∧ Scope_.clean (getScope f) s1 = Returns tt s2
      ∧ entriesOf s2 (getScope f) = ∅
      ∧ (if isUndefined (getReturnValue f)
         then Returns ScrapUndefined s2
         else thisComputeValue this (getReturnValue f) (getScope f) s2)
        = Returns v s'.
Proof.
  unfold execCallee, execDefinedFunc, releaseAndReturn, bind.
  destruct (bindArguments this call f calleerScope s) as [[] sa | |];
    [| split; [discriminate | intros (? & ? & ? & _); discriminate] ..].
  destruct (runBody this f (getScope f) sa) as [[] sb | |];
    [| split; [discriminate | intros (? & ? & ? & _); discriminate] ..].
  destruct (checkReturn f sb) as [[] sc | |];
    [| split; [discriminate | intros (? & ? & ? & _); discriminate] ..].
  split.
  - intros Hret. exists sc, (withEntries (getScope f) ∅ sc).
    split; [reflexivity |]. split; [reflexivity |].
    split; [apply entriesOf_withEntries |].
    simpl in Hret. destruct (isUndefined (getReturnValue f)); exact Hret.
  - intros (s1 & s2 & Hphases & Hclean & _ & Hret).
    injection Hphases as <-. injection Hclean as <-.
    simpl. destruct (isUndefined (getReturnValue f)); exact Hret.
Qed.

Lemma scope_released_before_return_witness :
  ∃ s1 s2,
    (bindArguments (interpreter Samples.noHost "0" 1) Samples.k_1 Samples.k
       Samples.main ;;
     runBody (interpreter Samples.noHost "0" 1) Samples.k Samples.own ;;
     checkReturn Samples.k) (Samples.declared Samples.k) = Returns tt s1
    ∧ Scope_.clean Samples.own s1 = Returns tt s2
    ∧ entriesOf s2 Samples.own = ∅
    ∧ Returns ScrapUndefined s2
      = Returns ScrapUndefined (Samples.declared Samples.k).
Proof.
  apply (proj1 (scope_released_before_return Samples.noHost
                  (interpreter Samples.noHost "0" 1) Samples.k_1 Samples.k
                  Samples.main (Samples.declared Samples.k)
                  ScrapUndefined (Samples.declared Samples.k))).
  vm_compute. reflexivity.
Defined.

(** * Further properties of the code *)

(** ** Integers *)

(** X1: in the range where the host counts exactly ([|v| < 2^53]),
    [increment] and [decrement] undo each other on the receiver: after
    [v.increment()] then [v.decrement()] (or the other way round) [v]
    stores what it stored before, the second call returning a new
    Integer with the intermediate payload.  [n] increments in a row
    leave the receiver [n] above where it started, until it reaches
    [2^53], where it stays. *)
Theorem increment_decrement_cancel (v : Z) (n : nat) :
  (- 2 ^ 53 < v < 2 ^ 53)%Z →
  snd (numerics.decrement (snd (numerics.increment (numerics.mkInteger v))))
    = numerics.mkInteger v
  ∧ fst (numerics.decrement (snd (numerics.increment (numerics.mkInteger v))))
    = numerics.mkInteger (v + 1)
  ∧ snd (numerics.increment (snd (numerics.decrement (numerics.mkInteger v))))
    = numerics.mkInteger v
  ∧ Nat.iter n (λ r, snd (numerics.increment r)) (numerics.mkInteger v)
    = numerics.mkInteger (Z.min (v + Z.of_nat n) (2 ^ 53)).
Proof.
  intros Hv. unfold numerics.increment, numerics.decrement. simpl.
  rewrite (nearestDouble_exact (v + 1)) by lia.
  rewrite (nearestDouble_exact (v - 1)) by lia.
  rewrite (nearestDouble_exact (v + 1 - 1)) by lia.
  rewrite (nearestDouble_exact (v - 1 + 1)) by lia.
  split; [f_equal; lia |]. split; [reflexivity |]. split; [f_equal; lia |].
  induction n as [| n IH].
  - simpl. f_equal. lia.
  - rewrite Nat.iter_succ, IH. simpl. f_equal.
    destruct (decide (v + Z.of_nat n < 2 ^ 53)%Z) as [Hlow | Hhigh].
    + rewrite nearestDouble_exact by lia. lia.
    + replace (Z.min (v + Z.of_nat n) (2 ^ 53)) with (2 ^ 53)%Z by lia.
      replace (Z.min (v + Z.of_nat (S n)) (2 ^ 53)) with (2 ^ 53)%Z by lia.
      vm_compute. reflexivity.
Qed.

Lemma increment_decrement_cancel_witness :
  Nat.iter 3 (λ r, snd (numerics.increment r)) (numerics.mkInteger 5)
    = numerics.mkInteger 8
  ∧ Nat.iter 3 (λ r, snd (numerics.increment r))
             (numerics.mkInteger (2 ^ 53 - 1))
    = numerics.mkInteger (2 ^ 53).
Proof.
  split.
  - apply (proj2 (proj2 (proj2 (increment_decrement_cancel 5 3
                                  ltac:(split; reflexivity))))).
  - apply (proj2 (proj2 (proj2 (increment_decrement_cancel (2 ^ 53 - 1) 3
                                  ltac:(split; reflexivity))))).
Defined.

(** ** Property tables *)

Lemma has_after_set {V} (m : HostMap V) (key : string) (v : V) :
  Map_.has (Map_.set m key v) key = true.
Proof.
  unfold Map_.has, Map_.set. cbn [bindings].
  apply bool_decide_eq_true_2. rewrite lookup_insert_eq. eauto.
Qed.

Lemma set_twice {V} (m : HostMap V) (key : string) (v1 v2 : V) :
  Map_.set (Map_.set m key v1) key v2 = Map_.set m key v2.
Proof.
  unfold Map_.set at 1. rewrite has_after_set.
  unfold Map_.set. cbn [bindings insertionOrder].
  by rewrite insert_insert_eq.
Qed.

(** X3: the last [set] on a key wins: writing [k] twice leaves the
    object as a single write of the second descriptor would, and [get]
    then returns the second descriptor's value. *)
Theorem set_overwrites (k : string) (d1 d2 : ScrapObjectProperty) :
  (∀ o, andThen (ScrapObj.set o k d1) (λ o1, ScrapObj.set o1 k d2)
        = ScrapObj.set o k d2)
  ∧ (∀ p t,
       andThen (ScrapObj.set (mkObject p (Some t)) k d1)
               (λ o1, andThen (ScrapObj.set o1 k d2)
                              (λ o2, ScrapObj.get o2 k))
         = Normal (value d2)).
Proof.
  split.
  - intros [p [t |]]; [| reflexivity].
    unfold ScrapObj.set. cbn [andThen table prototype].
    by rewrite set_twice.
  - intros p t. cbn [andThen ScrapObj.set table prototype].
    rewrite get_with_table. cbn [Map_.set bindings].
    rewrite lookup_insert_eq. reflexivity.
Qed.

(** X4: on an object that carries a table, a [set] on one key leaves
    every other key alone: [get] and [has] answer for another key as
    before, and after writes to two different keys [get] answers the
    same for every key whichever write came first. *)
Theorem set_other_keys (p : option ScrapObject) (t : HostMap Slot)
    (k1 k2 : string) (d1 d2 : ScrapObjectProperty) :
  k1 ≠ k2 →
  andThen (ScrapObj.set (mkObject p (Some t)) k1 d1)
          (λ o1, ScrapObj.get o1 k2)
    = ScrapObj.get (mkObject p (Some t)) k2
  ∧ andThen (ScrapObj.set (mkObject p (Some t)) k1 d1)
            (λ o1, ScrapObj.has o1 k2)
    = ScrapObj.has (mkObject p (Some t)) k2
  ∧ (∀ n,
       andThen (andThen (ScrapObj.set (mkObject p (Some t)) k1 d1)
                        (λ o1, ScrapObj.set o1 k2 d2))
               (λ o2, ScrapObj.get o2 n)
       = andThen (andThen (ScrapObj.set (mkObject p (Some t)) k2 d2)
                          (λ o1, ScrapObj.set o1 k1 d1))
                 (λ o2, ScrapObj.get o2 n)).
Proof.
  intros Hne. cbn [andThen ScrapObj.set table prototype].
  rewrite !get_with_table, !has_with_table. cbn [Map_.set bindings].
  rewrite lookup_insert_ne by done.
  split; [reflexivity |]. split; [reflexivity |].
  intros n. rewrite !get_with_table. cbn [Map_.set bindings].
  by rewrite insert_insert_ne.
Qed.

Lemma set_other_keys_witness :
  andThen (ScrapObj.set Samples.base "y"
             (mkProperty restMetaproperties (Samples.int 8)))
          (λ o1, ScrapObj.get o1 "x")
    = Normal (Samples.int 7).
Proof.
  unfold Samples.base.
  rewrite (proj1 (set_other_keys None
                    (Map_.set Map_.empty "x"
                       (Described (mkProperty restMetaproperties
                                     (Samples.int 7)))) "y" "x"
                    (mkProperty restMetaproperties (Samples.int 8))
                    (mkProperty restMetaproperties (Samples.int 8))
                    ltac:(discriminate))).
  vm_compute. reflexivity.
Defined.

(** X5: where [has] answers false, [get] answers Undefined; the
    converse fails, since [get] also answers Undefined for a key bound
    to the Undefined value, which [has] reports present. *)
Theorem get_undefined_is_ambiguous :
  (∀ o n, ScrapObj.has o n = Normal false →
          ScrapObj.get o n = Normal ScrapUndefined)
  ∧ ¬ (∀ o n, ScrapObj.get o n = Normal ScrapUndefined →
              ScrapObj.has o n = Normal false).
Proof.
  split.
  - intros [p [t |]] n; [| discriminate].
    rewrite has_with_table, get_with_table. intros [= H].
    apply bool_decide_eq_false in H.
    destruct (bindings t !! n); [exfalso; apply H; eauto | reflexivity].
  - intros H. specialize (H MoreSamples.explicitUndefined "u" eq_refl).
    vm_compute in H. discriminate H.
Qed.

Lemma get_undefined_is_ambiguous_witness :
  ScrapObj.get Samples.derived "x" = Normal ScrapUndefined.
Proof.
  apply (proj1 get_undefined_is_ambiguous Samples.derived "x").
  vm_compute. reflexivity.
Defined.

(** ** Declarations and identifiers *)

Lemma owner_withEntries (r : ScopeRef) (t : gmap string ScrapEntity) (s : State) :
  getOwner (scopeAt (withEntries r t s) r) = getOwner (scopeAt s r).
Proof.
  unfold scopeAt at 1. unfold withEntries. simpl.
  rewrite lookup_insert_eq. reflexivity.
Qed.

Lemma addToScope_fresh (e : ScrapEntity) (scope : ScopeRef) (s : State) :
  entriesOf s scope !! entityName e = None →
  addToScope e scope s = Returns e (declare scope (entityName e) e s).
Proof.
  intros H. unfold addToScope, bind. rewrite (addEntry_fresh _ _ _ _ H).
  reflexivity.
Qed.

Lemma addToScope_taken (e e' : ScrapEntity) (scope : ScopeRef) (s : State) :
  entriesOf s scope !! entityName e = Some e' →
  addToScope e scope s
    = Throws (RuntimeError ("'" +:+ entityName e +:+ "' is already defined at '"
                            +:+ getOwner (scopeAt s scope) +:+ "'")) s.
Proof.
  intros H. unfold addToScope, bind. rewrite (addEntry_taken _ _ _ _ _ H).
  reflexivity.
Qed.

(** X6: [addToScope] registers an entity under a name the scope does
    not hold and returns it; a second entity of the same name is then
    refused with the runtime error that names the entity and the
    scope's owner, and the scope keeps the first. *)
Theorem addToScope_refuses_second (e1 e2 : ScrapEntity) (scope : ScopeRef)
    (s : State) :
  entriesOf s scope !! entityName e1 = None →
  entityName e2 = entityName e1 →
  ∃ s1, addToScope e1 scope s = Returns e1 s1
      ∧ entriesOf s1 scope !! entityName e1 = Some e1
      ∧ addToScope e2 scope s1
        = Throws (RuntimeError ("'" +:+ entityName e2
                                +:+ "' is already defined at '"
                                +:+ getOwner (scopeAt s scope) +:+ "'")) s1.
Proof.
  intros Hfresh Hname. exists (declare scope (entityName e1) e1 s).
  assert (Hheld : entriesOf (declare scope (entityName e1) e1 s) scope
                    !! entityName e1 = Some e1).
  { rewrite entriesOf_declare. apply lookup_insert_eq. }
  split; [by apply addToScope_fresh |]. split; [exact Hheld |].
  assert (Hheld2 : entriesOf (declare scope (entityName e1) e1 s) scope
                     !! entityName e2 = Some e1).
  { rewrite Hname. exact Hheld. }
  rewrite (addToScope_taken _ _ _ _ Hheld2).
  unfold declare. by rewrite owner_withEntries.
Qed.

Lemma addToScope_refuses_second_witness :
  ∃ s1, addToScope MoreSamples.shadow MoreSamples.child MoreSamples.scoped
        = Returns MoreSamples.shadow s1
      ∧ entriesOf s1 MoreSamples.child !! "n" = Some MoreSamples.shadow
      ∧ addToScope MoreSamples.shadow MoreSamples.child s1
        = Throws (RuntimeError "'n' is already defined at 'block'") s1.
Proof.
  apply (addToScope_refuses_second MoreSamples.shadow MoreSamples.shadow
           MoreSamples.child MoreSamples.scoped).
  - vm_compute. reflexivity.
  - reflexivity.
Defined.

Lemma walk_own (steps : nat) (s : State) (r : ScopeRef) (n : string)
    (e : ScrapEntity) :
  entriesOf s r !! n = Some e → Scope_.walk (S steps) s r n = Some e.
Proof. intros H. simpl. rewrite H. reflexivity. Qed.

Lemma store_inhabited (s : State) (r : ScopeRef) (n : string) (e : ScrapEntity) :
  entriesOf s r !! n = Some e → ∃ k, size (scopes s) = S k.
Proof.
  intros H. destruct (size (scopes s)) as [| k] eqn:Hsize; [| eauto].
  apply map_size_empty_iff in Hsize.
  unfold entriesOf, scopeAt in H. rewrite Hsize, lookup_empty in H.
  simpl in H. rewrite lookup_empty in H. discriminate H.
Qed.

(** X7: a name bound in a parent scope can be declared again in a
    child scope: [addToScope] succeeds, the parent's table is
    untouched, and lookups that found the parent's entity from the
    child now find the child's, while lookups from the parent still
    find the parent's. *)
Theorem addToScope_shadows_parent (e e0 : ScrapEntity) (child p : ScopeRef)
    (s : State) :
  child ≠ p →
  parent (scopeAt s child) = Some p →
  entriesOf s child !! entityName e = None →
  entriesOf s p !! entityName e = Some e0 →
  Scope_.getReference child (entityName e) s = Returns (Some e0) s
  ∧ ∃ s1, addToScope e child s = Returns e s1
        ∧ entriesOf s1 p = entriesOf s p
        ∧ Scope_.getReference child (entityName e) s1 = Returns (Some e) s1
        ∧ Scope_.getReference p (entityName e) s1 = Returns (Some e0) s1.
Proof.
  intros Hne Hparent Hfresh Hbound.
  destruct (store_inhabited _ _ _ _ Hbound) as [k Hsize].
  split.
  - unfold Scope_.getReference. rewrite Hsize. f_equal.
    simpl. rewrite Hfresh, Hparent, Hbound. reflexivity.
  - exists (declare child (entityName e) e s).
    assert (Hp : entriesOf (declare child (entityName e) e s) p = entriesOf s p).
    { by apply entriesOf_withEntries_other. }
    split; [by apply addToScope_fresh |]. split; [exact Hp |]. split.
    + unfold Scope_.getReference. f_equal. apply walk_own.
      rewrite entriesOf_declare. apply lookup_insert_eq.
    + unfold Scope_.getReference. f_equal. apply walk_own.
      by rewrite Hp.
Qed.

Lemma addToScope_shadows_parent_witness :
  ∃ s1, addToScope MoreSamples.shadow MoreSamples.child MoreSamples.scoped
        = Returns MoreSamples.shadow s1
      ∧ entriesOf s1 Samples.main = entriesOf MoreSamples.scoped Samples.main
      ∧ Scope_.getReference MoreSamples.child "n" s1
        = Returns (Some MoreSamples.shadow) s1
      ∧ Scope_.getReference Samples.main "n" s1
        = Returns (Some (VariableEntity
                           (mkVariable false "n" (Samples.int 5) false))) s1.
Proof.
  apply (proj2 (addToScope_shadows_parent MoreSamples.shadow
                  (VariableEntity (mkVariable false "n" (Samples.int 5) false))
                  MoreSamples.child Samples.main MoreSamples.scoped
                  ltac:(discriminate) eq_refl eq_refl eq_refl)).
Defined.

(** X8: a declaration instruction registers the entity it computes in
    the scope it is given; when that scope already holds the entity's
    name (a parameter's name, say) the instruction fails as already
    defined and the scope keeps what it held. *)
Theorem declaration_instruction (host : Host) (this : Self) (n : EntityNode)
    (fnScope : ScopeRef) (s s1 : State) (e : ScrapEntity) :
  thisComputeEntity this n fnScope s = Returns e s1 →
  (entriesOf s1 fnScope !! entityName e = None →
   computeInstruction host this (InstrEntity n) fnScope s
     = Returns tt (declare fnScope (entityName e) e s1))
  ∧ (∀ e', entriesOf s1 fnScope !! entityName e = Some e' →
     computeInstruction host this (InstrEntity n) fnScope s
       = Throws (RuntimeError ("'" +:+ entityName e
                               +:+ "' is already defined at '"
                               +:+ getOwner (scopeAt s1 fnScope) +:+ "'")) s1).
Proof.
  intros Hentity. split.
  - intros Hfresh. unfold computeInstruction. unfold bind at 1.
    rewrite Hentity. unfold bind. by rewrite (addToScope_fresh _ _ _ Hfresh).
  - intros e' Htaken. unfold computeInstruction. unfold bind at 1.
    rewrite Hentity. unfold bind. by rewrite (addToScope_taken _ _ _ _ Htaken).
Qed.

Lemma declaration_instruction_witness :
  computeInstruction MoreSamples.declaringHost
      (interpreter MoreSamples.declaringHost "0" 1)
      (InstrEntity (VariableNode 3)) Samples.own Samples.reentered
    = Throws (RuntimeError "'a' is already defined at 'g'") Samples.reentered
  ∧ ∃ s1, computeInstruction MoreSamples.declaringHost
            (interpreter MoreSamples.declaringHost "0" 1)
            (InstrEntity (VariableNode 3)) Samples.own
            (Samples.declared Samples.g) = Returns tt s1
        ∧ entriesOf s1 Samples.own !! "a"
          = Some (VariableEntity (mkVariable false "a" (Samples.int 3) false)).
Proof.
  split.
  - apply (proj2 (declaration_instruction MoreSamples.declaringHost
                    (interpreter MoreSamples.declaringHost "0" 1)
                    (VariableNode 3) Samples.own Samples.reentered
                    Samples.reentered
                    (VariableEntity
                       (mkVariable false "a" (Samples.int 3) false))
                    eq_refl)
                 (VariableEntity (mkVariable false "a" (Samples.int 9) false))).
    vm_compute. reflexivity.
  - eexists. split.
    + apply (proj1 (declaration_instruction MoreSamples.declaringHost
                      (interpreter MoreSamples.declaringHost "0" 1)
                      (VariableNode 3) Samples.own (Samples.declared Samples.g)
                      (Samples.declared Samples.g)
                      (VariableEntity
                         (mkVariable false "a" (Samples.int 3) false))
                      eq_refl)).
      vm_compute. reflexivity.
    + vm_compute. reflexivity.
Defined.

(** X9: evaluating an identifier only reads the scopes, and its result
    is never a primitive object: a Variable that holds a primitive
    yields a plain Value around the primitive's payload, a Variable
    that holds anything else yields what it holds, and a name that
    resolves to a function yields the function. *)
Theorem computeIdentifier_detaches (this : Self) (n : string) (scope : ScopeRef)
    (s : State) :
  (∀ v s', computeIdentifier this n scope s = Returns v s' →
           s' = s ∧ primitivePayload v = None)
  ∧ (∀ var payload,
       Scope_.getReference scope n s = Returns (Some (VariableEntity var)) s →
       primitivePayload (getAssignedValue var) = Some payload →
       computeIdentifier this n scope s = Returns (Raw payload) s)
  ∧ (∀ var,
       Scope_.getReference scope n s = Returns (Some (VariableEntity var)) s →
       primitivePayload (getAssignedValue var) = None →
       computeIdentifier this n scope s = Returns (getAssignedValue var) s)
  ∧ (∀ f,
       Scope_.getReference scope n s = Returns (Some (FunctionEntity f)) s →
       computeIdentifier this n scope s = Returns (Function f) s).
Proof.
  unfold computeIdentifier, bind.
  split; [| split; [| split]].
  - intros v s'. unfold Scope_.getReference.
    destruct (Scope_.walk _ s scope n) as [e |]; [| discriminate].
    unfold ret. intros [= <- <-]. split; [reflexivity |].
    destruct e as [var | f | m]; simpl; [| reflexivity ..].
    destruct (primitivePayload (getAssignedValue var)) eqn:Hp; [reflexivity | exact Hp].
  - intros var payload -> Hp. rewrite Hp. reflexivity.
  - intros var -> Hp. rewrite Hp. reflexivity.
  - intros f ->. reflexivity.
Qed.

Lemma computeIdentifier_detaches_witness :
  computeIdentifier (interpreter Samples.noHost "0" 1) "n" MoreSamples.child
      MoreSamples.scoped
    = Returns (Raw (PInteger 5)) MoreSamples.scoped
  ∧ computeIdentifier (interpreter Samples.noHost "0" 1) "g" MoreSamples.child
      MoreSamples.scoped
    = Returns (Function (Defined Samples.g)) MoreSamples.scoped.
Proof.
  split.
  - apply (proj1 (proj2 (computeIdentifier_detaches
                           (interpreter Samples.noHost "0" 1) "n"
                           MoreSamples.child MoreSamples.scoped))
                 (mkVariable false "n" (Samples.int 5) false) (PInteger 5)).
    + vm_compute. reflexivity.
    + reflexivity.
  - apply (proj2 (proj2 (proj2 (computeIdentifier_detaches
                                  (interpreter Samples.noHost "0" 1) "g"
                                  MoreSamples.child MoreSamples.scoped)))).
    vm_compute. reflexivity.
Defined.

(** ** Calls *)

(** X10: a call whose target name resolves to a Variable fails
    whatever the Variable holds, before any argument is evaluated and
    without touching the state. *)
Theorem call_through_variable_fails (host : Host) (this : Self) (call : CallNode)
    (scope : ScopeRef) (s : State) (var : ScrapVariable) :
  Scope_.get scope (getCallee call) s = Returns (Some (VariableEntity var)) s →
  computeCall host this call scope s
    = Throws (TypeError "this.scrapRuntimeError is not a function") s.
Proof.
  intros H. unfold computeCall, findCallee.
  unfold bind at 1. unfold bind at 1. rewrite H. reflexivity.
Qed.

Lemma call_through_variable_fails_witness :
  computeCall Samples.noHost (interpreter Samples.noHost "0" 0)
      (mkCall "callback" [Samples.lit 1; Samples.lit 2]) Samples.main
      Samples.aliased
    = Throws (TypeError "this.scrapRuntimeError is not a function")
             Samples.aliased.
Proof.
  apply (call_through_variable_fails Samples.noHost
           (interpreter Samples.noHost "0" 0)
           (mkCall "callback" [Samples.lit 1; Samples.lit 2]) Samples.main
           Samples.aliased
           (mkVariable true "callback" (Function (Defined Samples.g)) false)).
  vm_compute. reflexivity.
Defined.

(** X11: the arity test of a native call.  A fixed count of at least
    one refuses more arguments than the count, before evaluating any
    of them; fewer arguments than the count are let through, a count
    of zero lets any number through, and a function whose count is
    [true] is refused from two arguments on.  A call let through is
    the host callable applied to the argument values. *)
Theorem native_call_arity (host : Host) (this : Self) (call : CallNode)
    (f : ScrapNative) (scope : ScopeRef) (s : State) :
  (∀ n, getArgsCount f = Fixed (S n) → S n < length (getArgs call) →
        execCallee host this call (Function (Native f)) scope s
          = Throws (TypeError "this.scrapRuntimeError is not a function") s)
  ∧ (getArgsCount f = AnyCount → 1 < length (getArgs call) →
     execCallee host this call (Function (Native f)) scope s
       = Throws (TypeError "this.scrapRuntimeError is not a function") s)
  ∧ ((getArgsCount f = Fixed 0
      ∨ (∃ n, getArgsCount f = Fixed n ∧ (length (getArgs call) ≤ n)%nat)
      ∨ (getArgsCount f = AnyCount ∧ (length (getArgs call) ≤ 1)%nat)) →
     execCallee host this call (Function (Native f)) scope s
       = (args <- mapM (λ arg, thisComputeValue this arg scope) (getArgs call) ;;
          action host (getAction f) args) s).
Proof.
  unfold execCallee. split; [| split].
  - intros n -> Hlen. unfold bind at 1. simpl.
    rewrite bool_decide_eq_true_2 by done. reflexivity.
  - intros -> Hlen. unfold bind at 1. simpl.
    rewrite bool_decide_eq_true_2 by done. reflexivity.
  - intros H. unfold bind at 1.
    assert (Hok : exceedsArgsCount (getArgsCount f) (length (getArgs call)) = false).
    { destruct H as [-> | [(n & -> & Hlen) | [-> Hlen]]]; [reflexivity | |].
      - destruct n; [reflexivity |]. simpl. apply bool_decide_eq_false_2. lia.
      - simpl. apply bool_decide_eq_false_2. lia. }
    rewrite Hok. reflexivity.
Qed.

Lemma native_call_arity_witness :
  execCallee MoreSamples.countingHost
      (interpreter MoreSamples.countingHost "0" 1)
      (mkCall "pair" [Samples.lit 1; Samples.lit 2; Samples.lit 3])
      (Function (Native MoreSamples.pair)) Samples.main
      (Samples.declared Samples.g)
    = Throws (TypeError "this.scrapRuntimeError is not a function")
             (Samples.declared Samples.g)
  ∧ execCallee MoreSamples.countingHost
      (interpreter MoreSamples.countingHost "0" 1)
      (mkCall "pair" [Samples.lit 1])
      (Function (Native MoreSamples.pair)) Samples.main
      (Samples.declared Samples.g)
    = Returns (Samples.int 1) (Samples.declared Samples.g).
Proof.
  split.
  - apply (proj1 (native_call_arity MoreSamples.countingHost
                    (interpreter MoreSamples.countingHost "0" 1)
                    (mkCall "pair" [Samples.lit 1; Samples.lit 2; Samples.lit 3])
                    MoreSamples.pair Samples.main (Samples.declared Samples.g))
                 1 eq_refl).
    simpl. lia.
  - rewrite (proj2 (proj2 (native_call_arity MoreSamples.countingHost
                             (interpreter MoreSamples.countingHost "0" 1)
                             (mkCall "pair" [Samples.lit 1])
                             MoreSamples.pair Samples.main
                             (Samples.declared Samples.g)))).
    + vm_compute. reflexivity.
    + right. left. exists 2. split; [reflexivity | simpl; lia].
Defined.

Lemma mapM_app {A B} (f : A → M B) (l1 l2 : list A) (s : State) :
  mapM f (l1 ++ l2)%list s
    = (ys1 <- mapM f l1 ;; ys2 <- mapM f l2 ;; ret (ys1 ++ ys2)%list) s.
Proof.
  revert s. induction l1 as [| x l1 IH]; intros s; simpl.
  - unfold bind, ret. destruct (mapM f l2 s); reflexivity.
  - unfold bind. destruct (f x s) as [y s1 | |]; [| reflexivity ..].
    rewrite IH. unfold bind, ret.
    destruct (mapM f l1 s1) as [ys1 s2 | |]; [| reflexivity ..].
    destruct (mapM f l2 s2); reflexivity.
Qed.

(** X12: the arguments of a native call are evaluated left to right in
    the caller's scope; when one of them fails, the arguments after it
    are not evaluated, the host callable is not invoked, and the call
    fails as that argument did. *)
Theorem native_call_failing_argument (host : Host) (this : Self)
    (f : ScrapNative) (callee : string) (before after : list ValueNode)
    (bad : ValueNode) (scope : ScopeRef) (s s1 s2 : State)
    (vs : list ScrapValue) (e : Error) :
  exceedsArgsCount (getArgsCount f) (length (before ++ bad :: after)%list) = false →
  mapM (λ arg, thisComputeValue this arg scope) before s = Returns vs s1 →
  thisComputeValue this bad scope s1 = Throws e s2 →
  execCallee host this (mkCall callee (before ++ bad :: after)%list)
             (Function (Native f)) scope s
    = Throws e s2.
Proof.
  intros Hok Hbefore Hbad. unfold execCallee. simpl.
  unfold bind at 1. rewrite Hok. unfold ret at 1.
  unfold bind at 1. rewrite mapM_app.
  unfold bind at 1. rewrite Hbefore. simpl.
  unfold bind at 1. unfold bind at 1. rewrite Hbad. reflexivity.
Qed.

Lemma native_call_failing_argument_witness :
  execCallee MoreSamples.countingHost
      (interpreter MoreSamples.countingHost "0" 2)
      (mkCall "pair" [Samples.lit 1; CallExprNode "unknown" []])
      (Function (Native MoreSamples.pair)) Samples.main
      (Samples.declared Samples.g)
    = Throws (TypeError "this.scrapReferenceError is not a function")
             (Samples.declared Samples.g).
Proof.
  apply (native_call_failing_argument MoreSamples.countingHost
           (interpreter MoreSamples.countingHost "0" 2) MoreSamples.pair
           "pair" [Samples.lit 1] [] (CallExprNode "unknown" []) Samples.main
           (Samples.declared Samples.g) (Samples.declared Samples.g)
           (Samples.declared Samples.g) [Samples.int 1]).
  - reflexivity.
  - reflexivity.
  - vm_compute. reflexivity.
Defined.

Lemma forEach_app {A} (f : A → M unit) (l1 l2 : list A) (s : State) :
  forEach f (l1 ++ l2)%list s = (forEach f l1 ;; forEach f l2) s.
Proof.
  revert s. induction l1 as [| x l1 IH]; intros s; simpl.
  - reflexivity.
  - unfold bind. destruct (f x s) as [[] s1 | |]; [| reflexivity ..].
    rewrite IH. reflexivity.
Qed.

(** X13: the body of a function runs instruction by instruction and
    stops at the first one that fails: the instructions after it do
    not run, and the call fails as that instruction did, in the state
    of the failure, with the function's scope neither checked nor
    released. *)
Theorem body_stops_at_first_failure (this : Self) (callee : DefinedFunction)
    (scope : ScopeRef) (before after : list Instruction) (bad : Instruction)
    (s s1 s2 : State) (e : Error) :
  getBody callee = (before ++ bad :: after)%list →
  forEach (λ i, thisComputeInstruction this i scope) before s = Returns tt s1 →
  thisComputeInstruction this bad scope s1 = Throws e s2 →
  runBody this callee scope s = Throws e s2
  ∧ ∀ call calleerScope s0,
      bindArguments this call callee calleerScope s0 = Returns tt s →
      execDefinedFunc this call callee scope calleerScope s0 = Throws e s2.
Proof.
  intros Hbody Hbefore Hbad.
  assert (Hrun : runBody this callee scope s = Throws e s2).
  { unfold runBody. rewrite Hbody, forEach_app.
    unfold bind at 1. rewrite Hbefore. simpl.
    unfold bind at 1. rewrite Hbad. reflexivity. }
  split; [exact Hrun |].
  intros call calleerScope s0 Hbind. unfold execDefinedFunc.
  unfold bind at 1. rewrite Hbind. unfold bind at 1. rewrite Hrun. reflexivity.
Qed.

Lemma body_stops_at_first_failure_witness :
  execDefinedFunc (interpreter Samples.noHost "0" 2) (mkCall "broken" [])
      MoreSamples.broken Samples.own Samples.main
      (Samples.declared MoreSamples.broken)
    = Throws (TypeError "this.scrapReferenceError is not a function")
             (Samples.declared MoreSamples.broken).
Proof.
  apply (proj2 (body_stops_at_first_failure
                  (interpreter Samples.noHost "0" 2) MoreSamples.broken
                  Samples.own [] [InstrValue (Samples.lit 7)]
                  (InstrValue (CallExprNode "unknown" []))
                  (Samples.declared MoreSamples.broken)
                  (Samples.declared MoreSamples.broken)
                  (Samples.declared MoreSamples.broken)
                  (TypeError "this.scrapReferenceError is not a function")
                  eq_refl eq_refl ltac:(vm_compute; reflexivity))).
  reflexivity.
Defined.

(** X14: parameters are entries of the function's own scope, so a
    function whose return expression is one of its parameters is
    rejected by the escape check: with no rest parameter, an empty
    body, and a binding phase that binds every parameter, the call
    fails with the runtime error on locally scoped values, the scope
    still holding the parameters. *)
Theorem returning_a_parameter_is_rejected (this : Self) (call : CallNode)
    (callee : DefinedFunction) (scope calleerScope : ScopeRef) (s s1 : State)
    (vs : list ScrapValue) (x : string) :
  lastIsRest (getParams callee) = false →
  NoDup (pName <$> getParams callee) →
  (∀ p, p ∈ getParams callee →
        entriesOf s (getScope callee) !! pName p = None) →
  BoundInOrder this (getScope callee) calleerScope
               (getParams callee) (getArgs call) s vs s1 →
  getBody callee = [] →
  getReturnValue callee = IdentifierNode x →
  x ∈ pName <$> getParams callee →
  execDefinedFunc this call callee scope calleerScope s
    = Throws (RuntimeError (escapeMessage (name callee))) s1.
Proof.
  intros Hrest Hnodup Hfresh Hbound Hbody Hret Hx.
  destruct (BoundInOrder_length _ _ _ _ _ _ _ _ Hbound) as [Hlen Hvs].
  destruct (bindInOrder_bound _ _ _ _ _ _ _ _ Hbound Hnodup Hfresh)
    as (Hrun & Hlookup & _).
  apply list_elem_of_fmap in Hx as (p & -> & Hp).
  apply list_elem_of_lookup in Hp as [i Hi].
  destruct (lookup_lt_is_Some_2 vs i) as [v Hv].
  { rewrite Hvs. by apply lookup_lt_Some in Hi. }
  pose proof (Hlookup i p v Hi Hv) as Hheld.
  unfold execDefinedFunc, bindArguments. rewrite Hrest.
  rewrite bool_decide_eq_false_2 by (intros Hne; by apply Hne).
  unfold bind at 1. rewrite Hrun.
  unfold bind at 1. unfold runBody. rewrite Hbody. simpl.
  unfold bind at 1. unfold checkReturn. rewrite Hret.
  unfold bind, Scope_.ownEntries. rewrite Hheld.
  rewrite bool_decide_eq_true_2 by eauto. reflexivity.
Qed.

Lemma returning_a_parameter_is_rejected_witness :
  ∃ s1, execDefinedFunc (interpreter Samples.noHost "0" 1) Samples.h_1
          Samples.h Samples.own Samples.main (Samples.declared Samples.h)
        = Throws (RuntimeError (escapeMessage "h")) s1
      ∧ entriesOf s1 Samples.own !! "a"
        = Some (VariableEntity (mkVariable false "a" (Samples.int 1) false)).
Proof.
  eexists. split.
  - apply (returning_a_parameter_is_rejected
             (interpreter Samples.noHost "0" 1) Samples.h_1 Samples.h
             Samples.own Samples.main (Samples.declared Samples.h) _
             [Samples.int 1] "a" eq_refl).
    + simpl. apply NoDup_singleton.
    + intros p Hp. simpl in Hp.
      apply list_elem_of_singleton in Hp as ->. vm_compute. reflexivity.
    + simpl. eapply Bound_next; [reflexivity | reflexivity |]. apply Bound_none.
    + reflexivity.
    + reflexivity.
    + simpl. apply list_elem_of_singleton. reflexivity.
  - vm_compute. reflexivity.
Defined.

(** X15: a parameter whose name the function's scope already holds, as
    it does while an earlier call of the function is running, is not
    bound again: its argument is evaluated, the new Variable is
    dropped, and the scope keeps the earlier entry. *)
Theorem taken_parameter_keeps_earlier_entry (this : Self)
    (calleeScope calleerScope : ScopeRef) (p : ScrapParam) (a : ValueNode)
    (s s1 : State) (v : ScrapValue) (e : ScrapEntity) :
  thisComputeValue this a calleerScope s = Returns v s1 →
  entriesOf s1 calleeScope !! pName p = Some e →
  bindInOrder this calleeScope calleerScope [p] [a] s = Returns tt s1.
Proof. exact (bindInOrder_taken this calleeScope calleerScope p a s v s1 e). Qed.

Lemma taken_parameter_keeps_earlier_entry_witness :
  bindInOrder (interpreter Samples.noHost "0" 1) Samples.own Samples.main
      [mkParam "a" false] [Samples.lit 1] Samples.reentered
    = Returns tt Samples.reentered.
Proof.
  apply (taken_parameter_keeps_earlier_entry
           (interpreter Samples.noHost "0" 1) Samples.own Samples.main
           (mkParam "a" false) (Samples.lit 1) Samples.reentered
           Samples.reentered (Samples.int 1)
           (VariableEntity (mkVariable false "a" (Samples.int 9) false))).
  - reflexivity.
  - vm_compute. reflexivity.
Defined.

(** ** Object literals *)

Lemma mapM_length {A B} (f : A → M B) (l : list A) (s s' : State) (ys : list B) :
  mapM f l s = Returns ys s' → length ys = length l.
Proof.
  revert s ys. induction l as [| x l IH]; intros s ys; simpl.
  - unfold ret. intros [= <- _]. reflexivity.
  - unfold bind. destruct (f x s) as [y s1 | |]; [| discriminate ..].
    destruct (mapM f l s1) as [ys' s2 | |] eqn:Hrest; [| discriminate ..].
    unfold ret. intros [= <- <-]. simpl. f_equal. by eapply IH.
Qed.

Lemma fillPairs_filled (this : Self) (scope : ScopeRef)
    (pairs : list (string * ValueNode)) (m : HostMap Slot) (s s' : State)
    (vs : list ScrapValue) :
  mapM (λ n, thisComputeValue this n scope) (snd <$> pairs) s = Returns vs s' →
  fillPairs this scope pairs m s = Returns (filled (fst <$> pairs) vs m) s'.
Proof.
  revert m s vs. induction pairs as [| entry pairs IH]; intros m s vs.
  - simpl. unfold ret. intros [= <- <-]. reflexivity.
  - rewrite !fmap_cons. cbn [mapM fillPairs]. unfold bind.
    destruct (thisComputeValue this (snd entry) scope s) as [v s1 | |];
      [| discriminate ..].
    destruct (mapM (λ n, thisComputeValue this n scope) (snd <$> pairs) s1)
      as [vs' s2 | |] eqn:Hrest; [| discriminate ..].
    unfold ret. intros [= <- <-]. by apply IH.
Qed.

Lemma filled_cons (k0 : string) (keys : list string) (v0 : ScrapValue)
    (vs : list ScrapValue) (m : HostMap Slot) :
  filled (k0 :: keys) (v0 :: vs) m = filled keys vs (Map_.set m k0 (Bare v0)).
Proof. reflexivity. Qed.

Lemma filled_other (keys : list string) (vs : list ScrapValue)
    (m : HostMap Slot) (k : string) :
  k ∉ keys → bindings (filled keys vs m) !! k = bindings m !! k.
Proof.
  revert vs m. induction keys as [| k0 keys IH]; intros vs m Hk; [reflexivity |].
  destruct vs as [| v0 vs]; [reflexivity |].
  apply not_elem_of_cons in Hk as [Hne Hk].
  rewrite filled_cons, (IH _ _ Hk). by apply lookup_insert_ne.
Qed.

Lemma filled_last (keys : list string) (vs : list ScrapValue)
    (m : HostMap Slot) (i : nat) (k : string) (v : ScrapValue) :
  keys !! i = Some k → vs !! i = Some v →
  (∀ j, i < j → keys !! j ≠ Some k) →
  bindings (filled keys vs m) !! k = Some (Bare v).
Proof.
  revert vs m i. induction keys as [| k0 keys IH]; intros vs m i Hk Hv Hlast.
  - rewrite lookup_nil in Hk. discriminate Hk.
  - destruct vs as [| v0 vs]; [rewrite lookup_nil in Hv; discriminate Hv |].
    rewrite filled_cons.
    destruct i as [| i]; simpl in Hk, Hv.
    + injection Hk as ->. injection Hv as ->.
      rewrite filled_other; [apply lookup_insert_eq |].
      intros [j Hj]%list_elem_of_lookup. apply (Hlast (S j)); [lia | exact Hj].
    + apply (IH _ _ i Hk Hv). intros j Hj. apply (Hlast (S j)). lia.
Qed.

Lemma filled_dom (keys : list string) (vs : list ScrapValue)
    (m : HostMap Slot) :
  length vs = length keys →
  dom (bindings (filled keys vs m)) = dom (bindings m) ∪ list_to_set keys.
Proof.
  revert vs m. induction keys as [| k0 keys IH]; intros vs m Hlen.
  - destruct vs; [| discriminate Hlen]. unfold filled. simpl. set_solver.
  - destruct vs as [| v0 vs]; [discriminate Hlen |].
    rewrite filled_cons.
    rewrite IH by (simpl in Hlen; lia). cbn [Map_.set bindings].
    rewrite dom_insert_L. set_solver.
Qed.

(** X16: when the value expressions of an object literal evaluate, in
    source order and in the given scope, [computeLitObj] returns an
    Object with no prototype whose own keys are exactly the literal's
    keys, each key holding the value of its last occurrence in the
    literal, and [has] answers true for each of them. *)
Theorem object_literal_table (this : Self) (pairs : list (string * ValueNode))
    (scope : ScopeRef) (s s' : State) (vs : list ScrapValue) :
  mapM (λ n, thisComputeValue this n scope) (snd <$> pairs) s = Returns vs s' →
  ∃ o, computeLitObj this pairs scope s = Returns (Object o) s'
     ∧ prototype o = None
     ∧ dom (entries o) = list_to_set (fst <$> pairs)
     ∧ (∀ i k v, (fst <$> pairs) !! i = Some k → vs !! i = Some v →
                 (∀ j, i < j → (fst <$> pairs) !! j ≠ Some k) →
                 entries o !! k = Some (Bare v)
                 ∧ ScrapObj.has o k = Normal true).
Proof.
  intros Hvalues.
  exists (mkObject None (Some (filled (fst <$> pairs) vs Map_.empty))).
  split; [| split; [reflexivity | split]].
  - unfold computeLitObj. unfold bind.
    rewrite (fillPairs_filled _ _ _ _ _ _ _ Hvalues). reflexivity.
  - change (entries (mkObject None
                       (Some (filled (fst <$> pairs) vs Map_.empty))))
      with (bindings (filled (fst <$> pairs) vs Map_.empty)).
    rewrite filled_dom.
    + cbn [Map_.empty bindings]. set_solver.
    + rewrite (mapM_length _ _ _ _ _ Hvalues). by rewrite !length_fmap.
  - intros i k v Hk Hv Hlast.
    change (entries (mkObject None
                       (Some (filled (fst <$> pairs) vs Map_.empty))))
      with (bindings (filled (fst <$> pairs) vs Map_.empty)).
    pose proof (filled_last _ _ Map_.empty _ _ _ Hk Hv Hlast) as Hheld.
    split; [exact Hheld |].
    rewrite has_with_table, Hheld. reflexivity.
Qed.

Lemma object_literal_table_witness :
  ∃ o, computeLitObj (interpreter Samples.noHost "0" 1) MoreSamples.literal
         Samples.main (Samples.declared Samples.g)
       = Returns (Object o) (Samples.declared Samples.g)
     ∧ prototype o = None
     ∧ dom (entries o) = list_to_set ["a"; "b"]
     ∧ entries o !! "b" = Some (Bare (Samples.int 2)).
Proof.
  destruct (object_literal_table (interpreter Samples.noHost "0" 1)
              MoreSamples.literal Samples.main (Samples.declared Samples.g)
              (Samples.declared Samples.g) [Samples.int 1; Samples.int 2]
              eq_refl)
    as (o & Hrun & Hproto & Hdom & Hkeys).
  exists o. split; [exact Hrun |]. split; [exact Hproto |].
  split; [exact Hdom |].
  apply (Hkeys 1 "b" (Samples.int 2) eq_refl eq_refl).
  intros [| [| j]] Hj; [lia | lia | discriminate].
Defined.

(** X17: [computeLitObj] stores each evaluated Value in the table as
    it is, where [get] expects a descriptor.  Reading a key of an
    object literal back through [get] therefore does not yield the
    stored Value: where the key's expression evaluated to a Value
    object, [get] yields that object's payload field, and where it
    evaluated to the host's [undefined], as an array literal does,
    [get] yields the Undefined value. *)
Theorem get_on_object_literal (this : Self) (pairs : list (string * ValueNode))
    (scope : ScopeRef) (s s' : State) (vs : list ScrapValue) (o : ScrapObject)
    (i : nat) (k : string) (v : ScrapValue) :
  mapM (λ n, thisComputeValue this n scope) (snd <$> pairs) s = Returns vs s' →
  computeLitObj this pairs scope s = Returns (Object o) s' →
  (fst <$> pairs) !! i = Some k → vs !! i = Some v →
  (∀ j, i < j → (fst <$> pairs) !! j ≠ Some k) →
  ScrapObj.get o k
    = Normal (if truthy v then payloadOf v else ScrapUndefined)
  ∧ (∀ z, v = Integer z → ScrapObj.get o k = Normal (HostPayload (Integer z)))
  ∧ (v = HostUndefined → ScrapObj.get o k = Normal ScrapUndefined).
Proof.
  intros Hvalues Hrun Hk Hv Hlast.
  unfold computeLitObj, bind in Hrun.
  rewrite (fillPairs_filled _ _ _ _ _ _ _ Hvalues) in Hrun.
  injection Hrun as <-.
  rewrite get_with_table, (filled_last _ _ Map_.empty _ _ _ Hk Hv Hlast).
  split; [reflexivity |]. split.
  - intros z ->. reflexivity.
  - intros ->. reflexivity.
Qed.

Lemma get_on_object_literal_witness :
  ScrapObj.get
    (mkObject None
       (Some (Map_.set (Map_.set Map_.empty "a" (Bare (Samples.int 1)))
                       "b" (Bare (Samples.int 2))))) "a"
    = Normal (HostPayload (Samples.int 1))
  ∧ ScrapObj.get
      (mkObject None (Some (Map_.set Map_.empty "a" (Bare HostUndefined))))
      "a"
    = Normal ScrapUndefined.
Proof.
  split.
  - apply (proj1 (proj2 (get_on_object_literal
                           (interpreter Samples.noHost "0" 1)
                           MoreSamples.literal Samples.main
                           (Samples.declared Samples.g)
                           (Samples.declared Samples.g)
                           [Samples.int 1; Samples.int 2]
                           _ 0 "a" (Samples.int 1) eq_refl
                           ltac:(vm_compute; reflexivity) eq_refl eq_refl
                           ltac:(intros [| [| j]] Hj;
                                 [lia | discriminate | discriminate])))
                 (numerics.mkInteger 1) eq_refl).
  - apply (proj2 (proj2 (get_on_object_literal
                           (interpreter Samples.noHost "0" 1)
                           MoreSamples.holdingArray Samples.main
                           (Samples.declared Samples.g)
                           (Samples.declared Samples.g)
                           [HostUndefined]
                           _ 0 "a" HostUndefined eq_refl
                           ltac:(vm_compute; reflexivity) eq_refl eq_refl
                           ltac:(intros [| j] Hj; [lia | discriminate])))
                 eq_refl).
Defined.

(** ** Rendering of objects *)

Lemma occurrences_app (c : Ascii.ascii) (s1 s2 : string) :
  occurrences c (s1 +:+ s2) = occurrences c s1 + occurrences c s2.
Proof. induction s1 as [| c' s1 IH]; simpl; [reflexivity | rewrite IH; lia]. Qed.

Lemma occurrences_spaces (c : Ascii.ascii) (n : nat) :
  Ascii.eqb c " "%char = false → occurrences c (spaces n) = 0.
Proof.
  intros Hc. induction n as [| n IH]; [reflexivity |].
  simpl. rewrite Hc. exact IH.
Qed.

Lemma formated_plain (stringWithDeep : nat → Slot → string) (deep : nat)
    (c : Ascii.ascii) (entry : string * Slot) :
  Ascii.eqb c " "%char = false → Ascii.eqb c ":"%char = false →
  occurrences c (fst entry) = 0 →
  occurrences c (stringWithDeep deep (snd entry)) = 0 →
  occurrences c (spaces deep +:+ " " +:+ fst entry +:+ ": "
                 +:+ stringWithDeep deep (snd entry)) = 0.
Proof.
  intros Hspace Hcolon Hk Hv.
  rewrite !occurrences_app, occurrences_spaces, Hk, Hv by done.
  simpl. rewrite Hspace, Hcolon. reflexivity.
Qed.

Lemma formatEntries_separators (stringWithDeep : nat → Slot → string)
    (deep : nat) (c : Ascii.ascii) (isMultiline : bool)
    (arr : list (string * Slot)) :
  Ascii.eqb c " "%char = false → Ascii.eqb c ":"%char = false →
  (∀ entry, entry ∈ arr →
     occurrences c (fst entry) = 0
     ∧ occurrences c (stringWithDeep deep (snd entry)) = 0) →
  occurrences c (formatEntries stringWithDeep deep isMultiline arr)
    = (length arr - 1)
      * occurrences c (if isMultiline then "," +:+ newline else ",").
Proof.
  intros Hspace Hcolon. induction arr as [| entry arr IH]; intros Hplain.
  - reflexivity.
  - destruct (Hplain entry) as [Hk Hv]; [left |].
    pose proof (formated_plain stringWithDeep deep c entry Hspace Hcolon Hk Hv)
      as Hentry.
    destruct arr as [| entry' arr].
    + change (formatEntries stringWithDeep deep isMultiline [entry])
        with ((spaces deep +:+ " " +:+ fst entry +:+ ": "
               +:+ stringWithDeep deep (snd entry)) +:+ " ").
      rewrite occurrences_app, Hentry. simpl.
      rewrite Hspace. reflexivity.
    + assert (Hrest : ∀ e, e ∈ entry' :: arr →
                occurrences c (fst e) = 0
                ∧ occurrences c (stringWithDeep deep (snd e)) = 0).
      { intros e He. apply Hplain. by right. }
      specialize (IH Hrest).
      change (formatEntries stringWithDeep deep isMultiline
                (entry :: entry' :: arr))
        with ((if isMultiline
               then (spaces deep +:+ " " +:+ fst entry +:+ ": "
                     +:+ stringWithDeep deep (snd entry)) +:+ "," +:+ newline
               else (spaces deep +:+ " " +:+ fst entry +:+ ": "
                     +:+ stringWithDeep deep (snd entry)) +:+ ",")
              +:+ formatEntries stringWithDeep deep isMultiline (entry' :: arr)).
      rewrite occurrences_app, IH.
      destruct isMultiline; rewrite occurrences_app, Hentry;
        simpl length; lia.
Qed.

(** The table keeps the order in which its keys were first written,
    and that is the order the entries are printed in: a later write to
    a key changes its value, not its place. *)
Example printed_in_insertion_order :
  formatObject MoreSamples.renderInteger 0
    (Map_.toArray
       (Map_.set (Map_.set Map_.empty "a" (snd (MoreSamples.entry "a" 1)))
                 "b" (snd (MoreSamples.entry "b" 2))))
    = "{ a: 1, b: 2 }"
  ∧ formatObject MoreSamples.renderInteger 0
      (Map_.toArray
         (Map_.set
            (Map_.set (Map_.set Map_.empty "b" (snd (MoreSamples.entry "b" 2)))
                      "a" (snd (MoreSamples.entry "a" 1)))
            "b" (snd (MoreSamples.entry "b" 3))))
    = "{ b: 3, a: 1 }".
Proof. split; vm_compute; reflexivity. Qed.

(** X18: an object of at most two entries is rendered on one line and
    an object of more than two with one entry per line: when no key
    and no rendered value contains a line feed, the rendering of [n]
    entries contains none for [n ≤ 2] and [n + 1] of them for [n > 2];
    an empty object is rendered as the two braces around the
    indentation. *)
Theorem formatObject_lines (stringWithDeep : nat → Slot → string) (deep : nat)
    (arr : list (string * Slot)) :
  (∀ entry, entry ∈ arr →
     occurrences (Ascii.ascii_of_nat 10) (fst entry) = 0
     ∧ occurrences (Ascii.ascii_of_nat 10)
                   (stringWithDeep deep (snd entry)) = 0) →
  occurrences (Ascii.ascii_of_nat 10) (formatObject stringWithDeep deep arr)
    = (if bool_decide (2 < length arr) then length arr + 1 else 0)
  ∧ formatObject stringWithDeep deep [] = "{" +:+ spaces deep +:+ "}".
Proof.
  intros Hplain. split; [| reflexivity].
  unfold formatObject.
  rewrite !occurrences_app.
  rewrite (formatEntries_separators stringWithDeep deep (ascii_of_nat 10) _ arr
             eq_refl eq_refl Hplain).
  case_bool_decide as Hlen.
  - simpl. lia.
  - rewrite occurrences_spaces by reflexivity. simpl. lia.
Qed.

Lemma formatObject_lines_witness :
  occurrences (Ascii.ascii_of_nat 10)
              (formatObject MoreSamples.renderInteger 0 MoreSamples.three) = 4
  ∧ occurrences (Ascii.ascii_of_nat 10)
                (formatObject MoreSamples.renderInteger 0 MoreSamples.one) = 0.
Proof.
  split.
  - apply (proj1 (formatObject_lines MoreSamples.renderInteger 0
                    MoreSamples.three
                    ltac:(intros entry Hin; repeat
                            (apply elem_of_cons in Hin as [-> | Hin];
                             [split; reflexivity |]);
                          by apply elem_of_nil in Hin))).
  - apply (proj1 (formatObject_lines MoreSamples.renderInteger 0
                    MoreSamples.one
                    ltac:(intros entry Hin; repeat
                            (apply elem_of_cons in Hin as [-> | Hin];
                             [split; reflexivity |]);
                          by apply elem_of_nil in Hin))).
Defined.

(** X19: entries are separated by commas and the last entry is
    followed by none: when no key and no rendered value contains a
    comma, the rendering of [n] entries contains [n - 1] commas,
    single-line or multi-line alike. *)
Theorem formatObject_commas (stringWithDeep : nat → Slot → string) (deep : nat)
    (arr : list (string * Slot)) :
  (∀ entry, entry ∈ arr →
     occurrences (Ascii.ascii_of_nat 44) (fst entry) = 0
     ∧ occurrences (Ascii.ascii_of_nat 44)
                   (stringWithDeep deep (snd entry)) = 0) →
  occurrences (Ascii.ascii_of_nat 44) (formatObject stringWithDeep deep arr)
    = length arr - 1.
Proof.
  intros Hplain. unfold formatObject.
  rewrite !occurrences_app.
  rewrite (formatEntries_separators stringWithDeep deep (ascii_of_nat 44) _ arr
             eq_refl eq_refl Hplain).
  case_bool_decide as Hlen.
  - simpl. lia.
  - rewrite occurrences_spaces by reflexivity. simpl. lia.
Qed.

Lemma formatObject_commas_witness :
  occurrences (Ascii.ascii_of_nat 44)
              (formatObject MoreSamples.renderInteger 0 MoreSamples.three) = 2.
Proof.
  apply (formatObject_commas MoreSamples.renderInteger 0 MoreSamples.three).
  intros entry Hin.
  repeat (apply elem_of_cons in Hin as [-> | Hin]; [split; reflexivity |]).
  by apply elem_of_nil in Hin.
Defined.

(** The renderings of [{ a: 1 }] and [{ a: 1, b: 2, c: 3 }]. *)
Example formatObject_samples :
  formatObject MoreSamples.renderInteger 0 MoreSamples.one = "{ a: 1 }"
  ∧ formatObject MoreSamples.renderInteger 0 MoreSamples.three
    = "{" +:+ newline +:+ " a: 1," +:+ newline +:+ " b: 2," +:+ newline
          +:+ " c: 3 " +:+ newline +:+ "}".
Proof. split; vm_compute; reflexivity. Qed.

(** ** The function's scope between calls *)

(** X20: a successful call leaves the function's own scope empty, so
    the next call of the function starts from an empty table: this
    holds whenever evaluating the return expression leaves the table
    of that scope alone, as literals and the undefined expression do. *)
Theorem successful_call_leaves_scope_empty (host : Host) (this : Self)
    (call : CallNode) (f : DefinedFunction) (calleerScope : ScopeRef)
    (s s' : State) (v : ScrapValue) :
  (∀ s2 w s3,
     thisComputeValue this (getReturnValue f) (getScope f) s2 = Returns w s3 →
     entriesOf s3 (getScope f) = entriesOf s2 (getScope f)) →
  execCallee host this call (Function (Defined f)) calleerScope s = Returns v s' →
  entriesOf s' (getScope f) = ∅.
Proof.
  intros Hframe. unfold execCallee, execDefinedFunc, releaseAndReturn, bind.
  destruct (bindArguments this call f calleerScope s) as [[] sa | |];
    [| discriminate ..].
  destruct (runBody this f (getScope f) sa) as [[] sb | |]; [| discriminate ..].
  destruct (checkReturn f sb) as [[] sc | |]; [| discriminate ..].
  simpl. destruct (isUndefined (getReturnValue f)).
  - unfold ret. intros [= _ <-]. apply entriesOf_withEntries.
  - intros Hret. rewrite (Hframe _ _ _ Hret). apply entriesOf_withEntries.
Qed.

Lemma successful_call_leaves_scope_empty_witness :
  execCallee Samples.noHost (interpreter Samples.noHost "0" 1) Samples.g_1_2
      (Function (Defined Samples.g)) Samples.main (Samples.declared Samples.g)
    = Returns (Samples.int 0) (Samples.declared Samples.g)
  ∧ entriesOf (Samples.declared Samples.g) (getScope Samples.g) = ∅.
Proof.
  assert (Hrun : execCallee Samples.noHost (interpreter Samples.noHost "0" 1)
                   Samples.g_1_2 (Function (Defined Samples.g)) Samples.main
                   (Samples.declared Samples.g)
                 = Returns (Samples.int 0) (Samples.declared Samples.g)).
  { vm_compute. reflexivity. }
  split; [exact Hrun |].
  apply (successful_call_leaves_scope_empty Samples.noHost
           (interpreter Samples.noHost "0" 1) Samples.g_1_2 Samples.g
           Samples.main (Samples.declared Samples.g)
           (Samples.declared Samples.g) (Samples.int 0)).
  - intros s2 w s3. simpl. unfold ret. intros [= _ <-]. reflexivity.
  - exact Hrun.
Defined.
